(** * DeepGuard front end: the calibrated detection-request pipeline

    A shallow embedding of the request client ([src/services/api.ts] and its
    JavaScript twin [src/services/api.js]), of the hooks of
    [src/hooks/useApi.ts] and of the range shown by
    [src/components/AudioCalibration.js], followed by the properties the
    specification states about them.

    Conventions of the embedding.
    - JavaScript numbers that count things (bytes, retries, milliseconds, HTTP
      status codes) are [Z] or [nat]; numbers that are fractions (threshold,
      uncertainty range, scores) are exact rationals [Q].  Non-finite numbers
      are outside the data model of the specification and are not represented.
    - [undefined] / a missing property is [None].
    - A thrown [Error] is a value of a result type; [async] code is cut at its
      [await] points into the steps the event loop can run.
    - Strings are byte strings; [toLowerCase] is the ASCII one. *)

From Stdlib Require Import ZArith QArith Qabs Qround Qminmax Lia Ascii String.
From stdpp Require Import base gmap strings list pretty.

Open Scope Z_scope.

(** ** JavaScript helpers *)

(** [s || d] on strings: the empty string and [undefined] are falsy. *)
Definition str_or (s : option string) (d : string) : string :=
  match s with
  | Some x => if String.eqb x "" then d else x
  | None => d
  end.

(** Truthiness of an optional string, as in [if (response.config.url)]. *)
Definition str_truthy (s : option string) : bool :=
  match s with
  | Some x => negb (String.eqb x "")
  | None => false
  end.


(** [Math.round]: the nearest integer, a tie going up. *)
Definition Math_round (q : Q) : Z := Qfloor (q + (1 # 2))%Q.

(** [Math.floor]. *)
Definition Math_floor (q : Q) : Z := Qfloor q.

(** ** [src/services/api.ts]: the request client *)

Module ApiService.

Definition API_TIMEOUT : Z := 60000.
Definition MAX_RETRIES : nat := 3.

(** The part of an axios request config the client looks at. *)
Record AxiosRequestConfig := {
  url : option string;
  method : string
}.

(** A response body: an object (with the fields the error formatter reads)
    or anything else.  The fields of an object are strings or [undefined]
    here; a body whose [error] or [detail] is some other JSON value (a list,
    a number, an object) is not among the bodies of this type. *)
Inductive Body :=
| ObjectBody (error detail details timestamp : option string)
| OtherBody (raw : string).

Record AxiosResponse := {
  status : Z;
  statusText : string;
  data : Body;
  response_config : AxiosRequestConfig
}.

Record AxiosError := {
  code : option string;
  message : string;
  config : option AxiosRequestConfig;
  response : option AxiosResponse
}.

Record ApiErrorResponse := {
  api_error : string;
  api_details : option string;
  api_timestamp : string
}.

Definition code_is (e : AxiosError) (c : string) : bool :=
  match code e with
  | Some x => String.eqb x c
  | None => false
  end.

(** [shouldRetry]: no response at all, or a status in [500, 600). *)
Definition shouldRetry (e : AxiosError) : bool :=
  match response e with
  | None => true
  | Some r => (500 <=? status r) && (status r <? 600)
  end.

(** [formatApiError]; [now] stands for [new Date().toISOString()]. *)
Definition formatApiError (now : string) (e : AxiosError) : ApiErrorResponse :=
  match response e with
  | Some {| data := ObjectBody err det dets ts |} =>
      {| api_error := str_or err (str_or det "Unknown API error");
         api_details := dets;
         api_timestamp := str_or ts now |}
  | Some r =>
      {| api_error := "HTTP " +:+ pretty (status r) +:+ ": " +:+ statusText r;
         api_details := None;
         api_timestamp := now |}
  | None =>
      {| api_error := if String.eqb (message e) ""
                      then "Unknown error occurred" else message e;
         api_details := None;
         api_timestamp := now |}
  end.

Definition TIMEOUT_MESSAGE : string := "Request timed out. Please try again.".
Definition UNREACHABLE_MESSAGE : string :=
  "Unable to connect to DeepGuard backend. Please ensure the server is running.".

(** What [handleResponseError] ends in: it throws, or it waits [delay]
    milliseconds and hands the same config back to [client.request]. *)
Inductive Handled :=
| Throw (msg : string)
| Retry (delay : Z) (cfg : AxiosRequestConfig).

(** [handleResponseError], with the [retryAttempts] map threaded through. *)
Definition handleResponseError (now : string) (retryAttempts : gmap string nat)
    (e : AxiosError) : Handled * gmap string nat :=
  let u := str_or (match config e with Some c => url c | None => None end) "unknown" in
  if code_is e "ECONNABORTED" then (Throw TIMEOUT_MESSAGE, retryAttempts)
  else if code_is e "ECONNREFUSED" || code_is e "ENOTFOUND"
  then (Throw UNREACHABLE_MESSAGE, retryAttempts)
  else
    let fail := (Throw (api_error (formatApiError now e)), retryAttempts) in
    match config e with
    | Some cfg =>
        if shouldRetry e then
          let currentRetries := default 0%nat (retryAttempts !! u) in
          if (currentRetries <? MAX_RETRIES)%nat then
            (Retry (2 ^ Z.of_nat currentRetries * 1000) cfg,
             <[u := S currentRetries]> retryAttempts)
          else fail
        else fail
    | None => fail
    end.

(** What the transport (the network and the backend behind it) does with one
    HTTP call: it answers, or the call dies without a response. *)
Inductive Outcome :=
| Replied (st : Z) (text : string) (body : Body)
| Failed (code : option string) (message : string).

(** The [n]-th call the client issues and its config decide the outcome. *)
Definition Transport := nat -> AxiosRequestConfig -> Outcome.

(** axios' [settle] with the default [validateStatus]: a 2xx answer fulfils
    the promise, any other answer rejects it with the response attached. *)
Definition settle (cfg : AxiosRequestConfig) (o : Outcome)
    : AxiosResponse + AxiosError :=
  match o with
  | Replied st text body =>
      let r := {| status := st; statusText := text; data := body;
                  response_config := cfg |} in
      if (200 <=? st) && (st <? 300) then inl r
      else inr {| code := if (400 <=? st) && (st <? 500) then Some "ERR_BAD_REQUEST"
                          else if (500 <=? st) && (st <? 600) then Some "ERR_BAD_RESPONSE"
                          else None;
                  message := "Request failed with status code " +:+ pretty st;
                  config := Some cfg;
                  response := Some r |}
  | Failed c m =>
      inr {| code := c; message := m; config := Some cfg; response := None |}
  end.

(** What the client does that can be seen from outside. *)
Inductive Event :=
| Sent (cfg : AxiosRequestConfig)
| Slept (ms : Z).

Record Service := {
  retryAttempts : gmap string nat;
  calls : nat;
  log : list Event
}.

Definition fresh : Service :=
  {| retryAttempts := ∅; calls := 0; log := [] |}.

(** The response interceptor's success branch. *)
Definition onFulfilled (m : gmap string nat) (r : AxiosResponse) : gmap string nat :=
  match url (response_config r) with
  | Some u => if String.eqb u "" then m else delete u m
  | None => m
  end.

(** [client.request(config)] through the response interceptors.  A retry
    re-enters [client.request], hence the recursion; [fuel] bounds the
    number of HTTP calls ([request_total] shows that [S MAX_RETRIES] is
    always enough).  This is a request that runs alone: the [retryAttempts]
    map is what this request left in it when it comes back from a wait.
    [Overlap.request_among] is the same request beside others. *)
Fixpoint request (fuel : nat) (now : string) (T : Transport)
    (cfg : AxiosRequestConfig) (s : Service)
    : option ((AxiosResponse + string) * Service) :=
  match fuel with
  | O => None
  | S fuel' =>
      let sent := log s ++ [Sent cfg] in
      match settle cfg (T (calls s) cfg) with
      | inl r =>
          Some (inl r, {| retryAttempts := onFulfilled (retryAttempts s) r;
                          calls := S (calls s);
                          log := sent |})
      | inr e =>
          match handleResponseError now (retryAttempts s) e with
          | (Throw msg, m) =>
              Some (inr msg, {| retryAttempts := m; calls := S (calls s); log := sent |})
          | (Retry d cfg', m) =>
              request fuel' now T cfg'
                {| retryAttempts := m; calls := S (calls s); log := sent ++ [Slept d] |}
          end
      end
  end.

(** The waits and the calls of a log. *)
Definition delays (l : list Event) : list Z :=
  omap (fun ev => match ev with Slept d => Some d | Sent _ => None end) l.

Definition attempts (l : list Event) : nat :=
  length (omap (fun ev => match ev with Sent c => Some c | Slept _ => None end) l).

(** *** [detectDeepfake]: upload progress *)

(** axios' progress event; [total] is missing when the length is not
    computable. *)
Record AxiosProgressEvent := {
  loaded : Z;
  total : option Z
}.

Record UploadProgressEvent := {
  up_loaded : Z;
  up_total : Z;
  percentage : Z
}.

(** [Math.round((progressEvent.loaded * 100) / progressEvent.total)] *)
Definition percent (l t : Z) : Z := Math_round (inject_Z (l * 100) / inject_Z t).

(** The [onUploadProgress] handler; [onProgress] tells whether the caller
    gave a callback.  [Some ev] is the call [onProgress(ev)]. *)
Definition onUploadProgress (onProgress : bool) (e : AxiosProgressEvent)
    : option UploadProgressEvent :=
  match total e with
  | Some t =>
      if onProgress && negb (t =? 0)
      then Some {| up_loaded := loaded e; up_total := t;
                   percentage := percent (loaded e) t |}
      else None
  | None => None
  end.

Definition UPLOAD_CANCELLED : string := "Upload was cancelled".

(** The [catch] of [detectDeepfake]: the message of the error it throws on,
    given whether [axios.isCancel] holds of the error it caught. *)
Definition detectDeepfake_catch (isCancel : bool) (message : string) : string :=
  if isCancel then UPLOAD_CANCELLED else message.

(** *** [validateFile] *)

Record File := {
  name : string;
  size : Z;
  type : string
}.

Record SupportedFormatsResponse := {
  audio : list string;
  image : list string
}.

Record Validation := {
  valid : bool;
  validation_error : option string
}.

(** [String.prototype.split] with a one-character separator. *)
Fixpoint split (sep : ascii) (s : string) : list string :=
  match s with
  | EmptyString => [EmptyString]
  | String c s' =>
      if Ascii.eqb c sep then EmptyString :: split sep s'
      else match split sep s' with
           | h :: t => String c h :: t
           | [] => [String c EmptyString]
           end
  end.

Definition lower (c : ascii) : ascii :=
  let n := nat_of_ascii c in
  if (65 <=? n)%nat && (n <=? 90)%nat then ascii_of_nat (n + 32) else c.

Fixpoint toLowerCase (s : string) : string :=
  match s with
  | EmptyString => EmptyString
  | String c s' => String (lower c) (toLowerCase s')
  end.

(** [Array.prototype.join]. *)
Fixpoint join (sep : string) (l : list string) : string :=
  match l with
  | [] => ""
  | [x] => x
  | x :: l' => x +:+ sep +:+ join sep l'
  end.

Definition includes (l : list string) (x : string) : bool :=
  existsb (String.eqb x) l.

Definition two_digits (n : Z) : string :=
  if n <? 10 then "0" +:+ pretty n else pretty n.

(** [Number.prototype.toFixed(2)]: the nearest multiple of 1/100, a tie
    taking the larger magnitude.  It is used on [size / 1024 / 1024] only,
    which a double holds exactly for every size a file can have. *)
Definition toFixed2 (q : Q) : string :=
  let n := Qfloor (Qabs q * 100 + (1 # 2))%Q in
  (if Qle_bool 0 q then "" else "-")
    +:+ pretty (n / 100) +:+ "." +:+ two_digits (n mod 100).

(** ['.' + file.name.split('.').pop()?.toLowerCase()] *)
Definition fileExtension (file : File) : string :=
  "." +:+ match last (split "." (name file)) with
          | Some x => toLowerCase x
          | None => "undefined"
          end.

Definition maxSize : Z := 100 * 1024 * 1024.

Definition UNABLE_TO_VALIDATE : string :=
  "Unable to validate file format. Please try again.".

Definition unsupported_reason (ext : string) (all : list string) : string :=
  "Unsupported file format: " +:+ ext +:+ ". Supported formats: " +:+ join ", " all.

(** [validateFile]; [formats] is what [await this.getSupportedFormats()]
    gave: the list, or the error it threw. *)
Definition validateFile (formats : SupportedFormatsResponse + string) (file : File)
    : Validation :=
  match formats with
  | inl formats =>
      let ext := fileExtension file in
      let allSupportedExtensions := audio formats ++ image formats in
      if negb (includes allSupportedExtensions ext) then
        {| valid := false;
           validation_error := Some (unsupported_reason ext allSupportedExtensions) |}
      else if maxSize <? size file then
        {| valid := false;
           validation_error :=
             Some ("File too large: "
                   +:+ toFixed2 (inject_Z (size file) / 1024 / 1024)
                   +:+ "MB. Maximum size: 100MB") |}
      else {| valid := true; validation_error := None |}
  | inr _ =>
      {| valid := false; validation_error := Some UNABLE_TO_VALIDATE |}
  end.

End ApiService.

(** ** [src/hooks/useApi.ts]: the hooks *)

Module UseApi.

Import ApiService.

(** [types/api.ts] *)
Inductive FileType := AUDIO | IMAGE | VIDEO | UNKNOWN.
Inductive DetectionResult := REAL | FAKE | UNCERTAIN.

(** The response of [POST /detect]; its free-form [metadata] plays no part
    in the hooks and is left out. *)
Record DetectionResponse := {
  file_type : FileType;
  detection_result : DetectionResult;
  confidence_score : Q;
  processing_time_ms : Q;
  file_hash : string;
  timestamp : string
}.

Record AudioCalibrationConfig := {
  flip_output_interpretation : option bool;
  threshold : option Q;
  uncertainty_range : option Q
}.

Record FileAnalysisState := {
  isAnalyzing : bool;
  progress : Z;
  error : option string;
  result : option DetectionResponse;
  uploadedFile : option File
}.

(** *** [useFileAnalysis] *)

(** The hook instance: its React state, the [abortControllerRef], and what
    lives outside it: the abort controllers created so far (named by
    number), those whose [abort()] was called, and the detect requests not
    settled yet, each named by the controller whose signal it carries. *)
Record Hook := {
  state : FileAnalysisState;
  abortControllerRef : option nat;
  created : nat;
  aborted : gset nat;
  pending : list nat
}.

Definition initial : Hook :=
  {| state := {| isAnalyzing := false; progress := 0; error := None;
                 result := None; uploadedFile := None |};
     abortControllerRef := None;
     created := 0;
     aborted := ∅;
     pending := [] |}.

Definition setState (f : FileAnalysisState -> FileAnalysisState) (h : Hook) : Hook :=
  {| state := f (state h);
     abortControllerRef := abortControllerRef h;
     created := created h;
     aborted := aborted h;
     pending := pending h |}.

(** [abortControllerRef.current.abort()] *)
Definition abort (c : nat) (h : Hook) : Hook :=
  {| state := state h;
     abortControllerRef := abortControllerRef h;
     created := created h;
     aborted := {[c]} ∪ aborted h;
     pending := pending h |}.

Definition is_pending (c : nat) (h : Hook) : bool := bool_decide (c ∈ pending h).
Definition is_aborted (c : nat) (h : Hook) : bool := bool_decide (c ∈ aborted h).

(** The requests that are on the wire and whose signal has not fired. *)
Definition live (h : Hook) : list nat :=
  filter (fun c => c ∉ aborted h) (pending h).

Definition settled (c : nat) (h : Hook) : Hook :=
  {| state := state h;
     abortControllerRef := abortControllerRef h;
     created := created h;
     aborted := aborted h;
     pending := filter (fun c' => c' ≠ c) (pending h) |}.

Definition CANCELLED_BY_USER : string := "Analysis cancelled by user".
Definition ANALYSIS_FAILED : string := "Analysis failed. Please try again.".

(** [analyzeFile], from the point where [await apiService.validateFile(file)]
    has come back, up to the [await] of the detect request. *)
Definition analyzeFile (formats : SupportedFormatsResponse + string) (file : File)
    (h : Hook) : Hook :=
  let validation := validateFile formats file in
  if negb (valid validation) then
    setState (fun prev =>
      {| isAnalyzing := false; progress := progress prev;
         error := validation_error validation;
         result := result prev; uploadedFile := uploadedFile prev |}) h
  else
    {| state := {| isAnalyzing := true; progress := 0; error := None;
                   result := None; uploadedFile := Some file |};
       abortControllerRef := Some (created h);
       created := S (created h);
       aborted := aborted h;
       pending := pending h ++ [created h] |}.

(** The rest of [analyzeFile]: the progress callback, the code after the
    [await], and the [catch]. *)
Definition onProgress (e : AxiosProgressEvent) (h : Hook) : Hook :=
  match onUploadProgress true e with
  | Some ev =>
      setState (fun prev =>
        {| isAnalyzing := isAnalyzing prev; progress := percentage ev;
           error := error prev; result := result prev;
           uploadedFile := uploadedFile prev |}) h
  | None => h
  end.

Definition onResult (r : DetectionResponse) (h : Hook) : Hook :=
  setState (fun prev =>
    {| isAnalyzing := false; progress := 100; error := error prev;
       result := Some r; uploadedFile := uploadedFile prev |}) h.

Definition onError (message : string) (h : Hook) : Hook :=
  setState (fun prev =>
    {| isAnalyzing := false; progress := progress prev;
       error := Some (if String.eqb message "" then ANALYSIS_FAILED else message);
       result := result prev; uploadedFile := uploadedFile prev |}) h.

Definition cancelAnalysis (h : Hook) : Hook :=
  match abortControllerRef h with
  | Some c =>
      setState (fun prev =>
        {| isAnalyzing := false; progress := progress prev;
           error := Some CANCELLED_BY_USER;
           result := result prev; uploadedFile := uploadedFile prev |})
        (abort c h)
  | None => h
  end.

Definition resetAnalysis (h : Hook) : Hook :=
  let h1 := setState (fun _ => state initial) h in
  match abortControllerRef h1 with
  | Some c =>
      {| state := state h1; abortControllerRef := None; created := created h1;
         aborted := {[c]} ∪ aborted h1; pending := pending h1 |}
  | None => h1
  end.

(** The effect clean-up that runs when the component unmounts. *)
Definition unmount (h : Hook) : Hook :=
  match abortControllerRef h with
  | Some c => abort c h
  | None => h
  end.

Definition canCancel (h : Hook) : bool :=
  isAnalyzing (state h) && bool_decide (abortControllerRef h ≠ None).

(** What the event loop can run next on a hook instance. *)
Inductive Event :=
| AnalyzeFile (formats : SupportedFormatsResponse + string) (file : File)
| Progress (c : nat) (e : AxiosProgressEvent)
| Resolved (c : nat) (r : DetectionResponse)
| Rejected (c : nat) (message : string)
| Cancelled (c : nat) (isCancel : bool) (message : string)
| CancelAnalysis
| ResetAnalysis
| Unmount.

(** One turn of the event loop; [None] when the event cannot happen in [h]:
    only a pending request makes progress or settles, and a request whose
    signal has fired settles by an error and in no other way ([isCancel]
    tells whether that error reaches [detectDeepfake] as an axios
    cancellation still, [message] is its message). *)
Definition step (h : Hook) (ev : Event) : option Hook :=
  match ev with
  | AnalyzeFile formats file => Some (analyzeFile formats file h)
  | Progress c e =>
      if is_pending c h && negb (is_aborted c h) then Some (onProgress e h) else None
  | Resolved c r =>
      if is_pending c h && negb (is_aborted c h)
      then Some (onResult r (settled c h)) else None
  | Rejected c message =>
      if is_pending c h && negb (is_aborted c h)
      then Some (onError message (settled c h)) else None
  | Cancelled c isCancel message =>
      if is_pending c h && is_aborted c h
      then Some (onError (detectDeepfake_catch isCancel message) (settled c h))
      else None
  | CancelAnalysis => Some (cancelAnalysis h)
  | ResetAnalysis => Some (resetAnalysis h)
  | Unmount => Some (unmount h)
  end.

Fixpoint run (h : Hook) (evs : list Event) : option Hook :=
  match evs with
  | [] => Some h
  | ev :: evs' =>
      match step h ev with
      | Some h' => run h' evs'
      | None => None
      end
  end.

(** *** [useAudioCalibration] *)

Definition defaultAudioConfig : AudioCalibrationConfig :=
  {| flip_output_interpretation := Some false;
     threshold := Some 0.5%Q;
     uncertainty_range := Some 0.1%Q |}.

(** A property of an object literal as the spread sees it: not an own
    property, or an own property with a value (which may be [undefined]). *)
Inductive Field (A : Type) :=
| Absent
| Given (v : option A).
Arguments Absent {A}.
Arguments Given {A} v.

(** [Partial<AudioCalibrationConfig>] *)
Record PartialConfig := {
  new_flip_output_interpretation : Field bool;
  new_threshold : Field Q;
  new_uncertainty_range : Field Q
}.

Definition over {A} (current : option A) (new : Field A) : option A :=
  match new with
  | Absent => current
  | Given v => v
  end.

(** [{ ...config, ...newConfig }] *)
Definition spread (config : AudioCalibrationConfig) (newConfig : PartialConfig)
    : AudioCalibrationConfig :=
  {| flip_output_interpretation :=
       over (flip_output_interpretation config) (new_flip_output_interpretation newConfig);
     threshold := over (threshold config) (new_threshold newConfig);
     uncertainty_range := over (uncertainty_range config) (new_uncertainty_range newConfig) |}.

Definition STORAGE_KEY : string := "deepguard_audio_calibration".

(** A string held by [localStorage]: [Json c] is the text
    [JSON.stringify(c)], which [JSON.parse] turns back into [c] (properties
    that are [undefined] are not written, and read back as [undefined]);
    [Text s] is any text [JSON.parse] rejects, or the empty text. *)
Inductive Item :=
| Json (c : AudioCalibrationConfig)
| Text (s : string).

(** [localStorage]: [denied] when every access throws (storage disabled),
    [full] when [setItem] throws (quota exceeded). *)
Record Storage := {
  items : gmap string Item;
  denied : bool;
  full : bool
}.

(** The initializer of [useState]: what a fresh hook instance starts with. *)
Definition initialConfig (localStorage : Storage) : AudioCalibrationConfig :=
  if denied localStorage then defaultAudioConfig
  else match items localStorage !! STORAGE_KEY with
       | Some (Json c) => c
       | Some (Text _) => defaultAudioConfig
       | None => defaultAudioConfig
       end.

(** [setConfig]; [config] is the state the callback closes over.  The new
    state and the storage afterwards. *)
Definition setConfig (config : AudioCalibrationConfig) (newConfig : PartialConfig)
    (localStorage : Storage) : AudioCalibrationConfig * Storage :=
  let updatedConfig := spread config newConfig in
  (updatedConfig,
   if denied localStorage || full localStorage then localStorage
   else {| items := <[STORAGE_KEY := Json updatedConfig]> (items localStorage);
           denied := denied localStorage;
           full := full localStorage |}).

Definition resetConfig (localStorage : Storage) : AudioCalibrationConfig * Storage :=
  (defaultAudioConfig,
   if denied localStorage then localStorage
   else {| items := delete STORAGE_KEY (items localStorage);
           denied := denied localStorage;
           full := full localStorage |}).

End UseApi.

(** ** [src/components/AudioCalibration.js]: the calibration panel *)

Module AudioCalibration.

Import UseApi.

Definition THRESHOLD_PRESETS : list (string * Q) :=
  [("Conservative", 0.65%Q); ("Balanced", 0.5%Q); ("Sensitive", 0.35%Q)].

Definition UNCERTAINTY_PRESETS : list (string * Q) :=
  [("Narrow", 0.05%Q); ("Standard", 0.1%Q); ("Wide", 0.2%Q)].

(** [applyPreset]: the update it hands to [handleConfigUpdate]. *)
Definition applyPreset (type : string) (value : Q) : PartialConfig :=
  if String.eqb type "threshold"
  then {| new_flip_output_interpretation := Absent;
          new_threshold := Given (Some value);
          new_uncertainty_range := Absent |}
  else {| new_flip_output_interpretation := Absent;
          new_threshold := Absent;
          new_uncertainty_range := Given (Some value) |}.


End AudioCalibration.

(** ** The verdict interpreter

    No function of the sources turns a score into a verdict: the front end
    shows the [detection_result] the backend sends.  The interpreter is
    therefore written down from section 4.4 of the specification. *)

Module Verdict.

Import UseApi.

(** Modelled from the spec: the [CalibrationConfig] of section 3, the input
    of the interpreter that the sources do not contain. *)
Record CalibrationConfig := {
  flipOutputInterpretation : bool;
  threshold : Q;
  uncertaintyRange : Q
}.

(** Modelled from the spec: the effective fake-probability of the missing
    interpreter, [config.flipOutputInterpretation ? (1 - s) : s]. *)
Definition pFake (s : Q) (config : CalibrationConfig) : Q :=
  if flipOutputInterpretation config then (1 - s)%Q else s.

(** Modelled from the spec: clipping to [[0,1]], used by the band of the
    missing interpreter. *)
Definition clip (q : Q) : Q := Qmax 0 (Qmin 1 q).

(** Modelled from the spec: the uncertainty band of the missing
    interpreter, [[threshold - uncertaintyRange/2, threshold +
    uncertaintyRange/2]] clipped to [[0,1]]. *)
Definition uncertaintyBand (config : CalibrationConfig) : Q * Q :=
  (clip (threshold config - uncertaintyRange config / 2)%Q,
   clip (threshold config + uncertaintyRange config / 2)%Q).

(** Modelled from the spec: inclusive membership in the band of the
    missing interpreter. *)
Definition inBand (band : Q * Q) (p : Q) : bool :=
  Qle_bool (fst band) p && Qle_bool p (snd band).

(** Modelled from the spec: the missing interpreter itself, its three rules
    in the order of section 4.4. *)
Definition interpret (s : Q) (config : CalibrationConfig) : DetectionResult :=
  let p := pFake s config in
  if inBand (uncertaintyBand config) p then UNCERTAIN
  else if Qle_bool (threshold config) p then FAKE
  else REAL.

(** Modelled from the spec: the confidence the missing interpreter returns
    with the verdict, [max(pFake, 1 - pFake)]. *)
Definition confidence (s : Q) (config : CalibrationConfig) : Q :=
  Qmax (pFake s config) (1 - pFake s config)%Q.

(** Modelled from the spec: a [CalibrationConfig] with the flip off and the
    other fields kept, to say that the missing interpreter sees the flip
    through [pFake] only. *)
Definition unflipped (config : CalibrationConfig) : CalibrationConfig :=
  {| flipOutputInterpretation := false;
     threshold := threshold config;
     uncertaintyRange := uncertaintyRange config |}.

End Verdict.

(** ** Vocabulary of the statements *)

Module Retry.

Import ApiService.

(** The key under which [handleResponseError] counts: [config?.url || 'unknown']. *)
Definition key (cfg : AxiosRequestConfig) : string := str_or (url cfg) "unknown".

Definition counter (m : gmap string nat) (cfg : AxiosRequestConfig) : nat :=
  default 0%nat (m !! key cfg).

(** The three codes [handleResponseError] answers at once. *)
Definition special (c : option string) : bool :=
  match c with
  | Some x => String.eqb x "ECONNABORTED" || String.eqb x "ECONNREFUSED"
              || String.eqb x "ENOTFOUND"
  | None => false
  end.

Definition is_5xx (o : Outcome) : bool :=
  match o with
  | Replied st _ _ => (500 <=? st) && (st <? 600)
  | Failed _ _ => false
  end.

(** An outcome the retry branch takes up: a 5xx answer, or no answer and a
    code that is none of the three special ones. *)
Definition retryable (o : Outcome) : bool :=
  match o with
  | Replied st _ _ => (500 <=? st) && (st <? 600)
  | Failed c _ => negb (special c)
  end.

(** An outcome axios rejects. *)
Definition failing (o : Outcome) : bool :=
  match o with
  | Replied st _ _ => negb ((200 <=? st) && (st <? 300))
  | Failed _ _ => true
  end.

(** [handleResponseError] chose to call again. *)
Definition retried (h : Handled * gmap string nat) : bool :=
  match fst h with
  | Retry _ _ => true
  | Throw _ => false
  end.

(** The message a call that is not retried is rejected with. *)
Definition terminal_message (now : string) (cfg : AxiosRequestConfig) (o : Outcome)
    : string :=
  match settle cfg o with
  | inr e =>
      if code_is e "ECONNABORTED" then TIMEOUT_MESSAGE
      else if code_is e "ECONNREFUSED" || code_is e "ENOTFOUND" then UNREACHABLE_MESSAGE
      else api_error (formatApiError now e)
  | inl _ => ""
  end.

(** The service after one more call was sent, and after the wait that
    precedes a retry. *)
Definition sent (s : Service) (cfg : AxiosRequestConfig) : Service :=
  {| retryAttempts := retryAttempts s;
     calls := S (calls s);
     log := log s ++ [Sent cfg] |}.

Definition backed_off (s : Service) (cfg : AxiosRequestConfig) : Service :=
  {| retryAttempts :=
       <[key cfg := S (counter (retryAttempts s) cfg)]> (retryAttempts s);
     calls := S (calls s);
     log := (log s ++ [Sent cfg])
            ++ [Slept (2 ^ Z.of_nat (counter (retryAttempts s) cfg) * 1000)] |}.

(** A transport behind which every call fails in a way the retry branch
    takes up, and one that always answers 5xx. *)
Definition always_retryable (T : Transport) : Prop :=
  forall n cfg, retryable (T n cfg) = true.

Definition always_5xx (T : Transport) : Prop :=
  forall n cfg, is_5xx (T n cfg) = true.

End Retry.

Module Names.

(** The character occurs in the string. *)
Fixpoint contains (c : ascii) (s : string) : bool :=
  match s with
  | EmptyString => false
  | String c' s' => Ascii.eqb c' c || contains c s'
  end.

End Names.

(** ** Concrete inputs *)

Module Samples.

Import ApiService.

Definition wav_and_png : SupportedFormatsResponse + string :=
  inl {| audio := [".wav"]; image := [".png"] |}.

(** A file called just "wav", and one called "README". *)
Definition bare_wav : File := {| name := "wav"; size := 1024; type := "" |}.
Definition readme : File := {| name := "README"; size := 1024; type := "" |}.
Definition song : File := {| name := "My.Song.WAV"; size := 1024; type := "audio/wav" |}.

Definition health : AxiosRequestConfig := {| url := Some "/health"; method := "get" |}.

(** A backend that answers every call with 503. *)
Definition unavailable : Transport :=
  fun _ _ => Replied 503 "Service Unavailable" (OtherBody "").

(** A backend that answers every call with 404. *)
Definition not_found : Transport :=
  fun _ _ => Replied 404 "Not Found" (ObjectBody None (Some "Not Found") None None).

(** The error of a call to a port nobody listens on. *)
Definition refused : AxiosError :=
  {| code := Some "ECONNREFUSED";
     message := "connect ECONNREFUSED 127.0.0.1:8000";
     config := Some health;
     response := None |}.

(** The error of a call the browser could not carry out. *)
Definition network_error : AxiosError :=
  {| code := Some "ERR_NETWORK";
     message := "Network Error";
     config := Some health;
     response := None |}.

Import UseApi.

Definition photo : File := {| name := "face.png"; size := 2048; type := "image/png" |}.

Definition verdict_fake : DetectionResponse :=
  {| file_type := AUDIO; detection_result := FAKE; confidence_score := 0.9%Q;
     processing_time_ms := 120%Q; file_hash := "ab12"; timestamp := "2025-01-01T00:00:00Z" |}.

Definition verdict_real : DetectionResponse :=
  {| file_type := IMAGE; detection_result := REAL; confidence_score := 0.8%Q;
     processing_time_ms := 80%Q; file_hash := "cd34"; timestamp := "2025-01-01T00:00:01Z" |}.

(** The hook after [song] was analysed with success. *)
Definition succeeded : Hook :=
  {| state := {| isAnalyzing := false; progress := 100; error := None;
                 result := Some verdict_fake; uploadedFile := Some song |};
     abortControllerRef := Some 0%nat;
     created := 1;
     aborted := ∅;
     pending := [] |}.

(** The hook after [analyzeFile] ran for [song] and then, before any answer,
    for [photo]. *)
Definition two_uploads : Hook :=
  {| state := {| isAnalyzing := true; progress := 0; error := None;
                 result := None; uploadedFile := Some photo |};
     abortControllerRef := Some 1%nat;
     created := 2;
     aborted := ∅;
     pending := [0%nat; 1%nat] |}.

Definition empty_storage : Storage :=
  {| items := ∅; denied := false; full := false |}.

(** [{ threshold: q }] *)
Definition only_threshold (q : Q) : PartialConfig :=
  {| new_flip_output_interpretation := Absent;
     new_threshold := Given (Some q);
     new_uncertainty_range := Absent |}.

(** The "Conservative" threshold preset with the standard range. *)
Definition conservative : AudioCalibrationConfig :=
  {| flip_output_interpretation := Some false;
     threshold := Some 0.65%Q;
     uncertainty_range := Some 0.1%Q |}.

(** A storage whose quota is used up. *)
Definition full_storage : Storage :=
  {| items := ∅; denied := false; full := true |}.

End Samples.

(** ** The rules of the interpreter on a given band *)

Module Rules.

Import UseApi.

(** Modelled from the spec: the three rules of section 4.4 of the missing
    interpreter, in their order, with the band they test left open: inside
    the band (its ends included) the verdict is uncertain; outside it, a
    probability at or above the threshold is fake and one below it is
    real. *)
Definition decideWith (band : Q * Q) (threshold p : Q) : DetectionResult :=
  if Verdict.inBand band p then UNCERTAIN
  else if Qle_bool threshold p then FAKE
  else REAL.

End Rules.

(** ** A request beside other requests *)

Module Overlap.

Import ApiService.

(** What the other requests of the client do to the [retryAttempts] map
    they share with this one, while this one waits for its back-off and for
    the answer to the call after it: [I n m] is the map this request finds
    when it next looks, [m] the map it left after call number [n].  (The
    map is read and written in one go in [handleResponseError], before the
    wait; nothing comes between the two.) *)
Definition Interference := nat -> gmap string nat -> gmap string nat.

(** [client.request(config)] as in [ApiService.request], with the map
    shared.  The fuel is needed here: beside requests that keep clearing the
    counter a request may be retried any number of times. *)
Fixpoint request_among (I : Interference) (fuel : nat) (now : string) (T : Transport)
    (cfg : AxiosRequestConfig) (s : Service)
    : option ((AxiosResponse + string) * Service) :=
  match fuel with
  | O => None
  | S fuel' =>
      let sent := log s ++ [Sent cfg] in
      match settle cfg (T (calls s) cfg) with
      | inl r =>
          Some (inl r, {| retryAttempts := onFulfilled (retryAttempts s) r;
                          calls := S (calls s);
                          log := sent |})
      | inr e =>
          match handleResponseError now (retryAttempts s) e with
          | (Throw msg, m) =>
              Some (inr msg, {| retryAttempts := m; calls := S (calls s); log := sent |})
          | (Retry d cfg', m) =>
              request_among I fuel' now T cfg'
                {| retryAttempts := I (calls s) m;
                   calls := S (calls s);
                   log := sent ++ [Slept d] |}
          end
      end
  end.

(** No other request touches the map. *)
Definition alone (I : Interference) : Prop := forall n m, I n m = m.

End Overlap.

(** ** Further vocabulary *)

Module Backoff.

Import ApiService.

(** The waits before [k] retries in a row, the first of them made with [c]
    retries already counted. *)
Definition waits (c k : nat) : list Z :=
  (fun i => 2 ^ Z.of_nat i * 1000) <$> seq c k.

Definition total_wait (l : list Event) : Z := foldr Z.add 0 (delays l).

End Backoff.

Module Letters.

Definition is_upper (c : ascii) : bool :=
  (65 <=? nat_of_ascii c)%nat && (nat_of_ascii c <=? 90)%nat.

(** The string has a letter from A to Z. *)
Fixpoint has_upper (s : string) : bool :=
  match s with
  | EmptyString => false
  | String c s' => is_upper c || has_upper s'
  end.

End Letters.

Module Gate.

Import ApiService UseApi.

(** The runs looked at here.  An [AnalyzeFile] event is the moment a call of
    [analyzeFile] comes back from [await validateFile] and goes on to the
    upload; it is allowed when no analysis is running at that moment.  (This
    is a condition on the hook at that moment, not on the moment the file
    was handed over: a caller that looks at [isAnalyzing] before the
    validation does not by that alone keep to it.)  Cancel, reset and
    unmount are not allowed. *)
Definition allowed (h : Hook) (ev : Event) : bool :=
  match ev with
  | AnalyzeFile _ _ => negb (isAnalyzing (state h))
  | CancelAnalysis | ResetAnalysis | Unmount => false
  | _ => true
  end.

Fixpoint gated (h : Hook) (evs : list Event) : bool :=
  match evs with
  | [] => true
  | ev :: evs' =>
      allowed h ev
      && match step h ev with
         | Some h' => gated h' evs'
         | None => false
         end
  end.

(** What [isAnalyzing] stands for. *)
Definition analysing_ok (h : Hook) : Prop :=
  isAnalyzing (state h) = true ->
  (exists c, abortControllerRef h = Some c /\ c ∈ pending h)
  /\ error (state h) = None
  /\ result (state h) = None
  /\ is_Some (uploadedFile (state h)).

(** One request at most, and it is the one the state reports. *)
Definition one_at_a_time (h : Hook) : Prop :=
  aborted h = ∅
  /\ (isAnalyzing (state h) = false -> pending h = [])
  /\ (isAnalyzing (state h) = true ->
      exists c, pending h = [c] /\ abortControllerRef h = Some c).

End Gate.

(** ** [src/components/ResultsVisualization.js]: the probability chart *)

Module ResultsVisualization.

Import UseApi.

(** The fields of [metadata] the chart reads. *)
Record DetectionMetadata := {
  prob_fake : option Q;
  prob_real : option Q;
  real_probability : option Q;
  fake_probability : option Q
}.

(** An entry of the pie chart. *)
Record Slice := {
  slice_name : string;
  value : Q;
  color : string
}.

Definition slices (real fake : Q) : list Slice :=
  [ {| slice_name := "Real"; value := real; color := "#28a745" |};
    {| slice_name := "Fake"; value := fake; color := "#dc3545" |} ].

(** The [probabilityData] memo. *)
Definition probabilityData (metadata : option DetectionMetadata)
    (detection_result : DetectionResult) (confidence_score : Q) : list Slice :=
  match metadata with
  | None => []
  | Some metadata =>
      match prob_fake metadata, prob_real metadata with
      | Some pf, Some pr => slices (pr * 100)%Q (pf * 100)%Q
      | _, _ =>
          match real_probability metadata, fake_probability metadata with
          | Some rp, Some fp => slices (rp * 100)%Q (fp * 100)%Q
          | _, _ =>
              let realProb :=
                match detection_result with
                | REAL => (confidence_score * 100)%Q
                | _ => ((1 - confidence_score) * 100)%Q
                end in
              let fakeProb := (100 - realProb)%Q in
              slices realProb fakeProb
          end
      end
  end.

End ResultsVisualization.

(** ** [src/contexts/AnalyticsContext.js]: the analytics reducer *)

Module Analytics.

Record DailyUpload := {
  date : string;
  count : nat;
  deepfakes : nat;
  authentic : nat
}.

Record Detection := {
  at_ms : Z;
  outcome : string;
  confidence : Q;
  fileType : string
}.

(** A value of [fileTypes]: a number, [NaN], or a string.  The strings that
    come up are the text of a member of [Object.prototype] followed by [ones]
    digits 1; the text of the member itself is left open, only the number of
    digits is kept. *)
Inductive Count :=
| Number (n : nat)
| NaN
| Text (ones : nat).

(** The names [Object.prototype] answers to.  A read [o[k]] of one of them on
    an object literal that has no such key of its own yields the inherited
    member (a function, or for [__proto__] the prototype itself), not
    [undefined]. *)
Definition inherited : list string :=
  ["constructor"; "hasOwnProperty"; "isPrototypeOf"; "propertyIsEnumerable";
   "toLocaleString"; "toString"; "valueOf"; "__proto__";
   "__defineGetter__"; "__defineSetter__"; "__lookupGetter__"; "__lookupSetter__"].

Definition is_inherited (k : string) : bool := existsb (String.eqb k) inherited.

(** [o[k] + 1], where the map holds the keys [o] has of its own: a number
    counts up, [NaN + 1] and [undefined + 1] are [NaN], and a string or an
    inherited member (which [+] turns into its text) gets a 1 appended. *)
Definition plus_one (o : gmap string Count) (k : string) : Count :=
  match o !! k with
  | Some (Number n) => Number (S n)
  | Some NaN => NaN
  | Some (Text n) => Text (S n)
  | None => if is_inherited k then Text 1 else NaN
  end.

(** The reducer state; [fileTypes] holds the keys the object has of its
    own. *)
Record State := {
  totalFilesAnalyzed : nat;
  deepfakeDetected : nat;
  authenticFiles : nat;
  fileTypes : gmap string Count;
  detectionHistory : list Detection;
  dailyUploads : list DailyUpload;
  processingTimes : list Q;
  errorCount : nat;
  activeUsers : nat;
  averageConfidence : Q
}.

Definition initialState : State :=
  {| totalFilesAnalyzed := 0;
     deepfakeDetected := 0;
     authenticFiles := 0;
     fileTypes := {[ "audio" := Number 0; "image" := Number 0; "video" := Number 0 ]};
     detectionHistory := [];
     dailyUploads := [];
     processingTimes := [];
     errorCount := 0;
     activeUsers := 1;
     averageConfidence := 0 |}.

Inductive Action :=
| FILE_ANALYZED (result fileType : string) (processingTime confidence : Q)
| ERROR_OCCURRED
| OTHER (type : string).

(** [Array.prototype.slice(-n)]: the last [n] elements. *)
Definition slice_last {A} (n : nat) (l : list A) : list A := drop (length l - n) l.

(** [Array.prototype.findIndex] with the test [d.date === today]. *)
Fixpoint findIndex (today : string) (l : list DailyUpload) : option nat :=
  match l with
  | [] => None
  | d :: l' => if String.eqb (date d) today then Some 0%nat
               else S <$> findIndex today l'
  end.

Definition counted (isDeepfake : bool) (d : DailyUpload) : DailyUpload :=
  {| date := date d;
     count := S (count d);
     deepfakes := if isDeepfake then S (deepfakes d) else deepfakes d;
     authentic := if isDeepfake then authentic d else S (authentic d) |}.

(** [analyticsReducer]; [today] is [new Date().toISOString().split('T')[0]]
    and [now] is [Date.now()] at the time of the dispatch.  The entry of
    today is written in place in the source (the copy of the array shares its
    entries with the state before); here each state has its own entries. *)
Definition analyticsReducer (today : string) (now : Z) (state : State) (action : Action)
    : State :=
  match action with
  | FILE_ANALYZED result fileType processingTime confidence =>
      let isDeepfake := String.eqb result "DEEPFAKE" || String.eqb result "FAKE" in
      let dailyUploads :=
        match findIndex today (dailyUploads state) with
        | Some todayIndex => alter (counted isDeepfake) todayIndex (dailyUploads state)
        | None =>
            dailyUploads state
            ++ [ {| date := today; count := 1;
                    deepfakes := if isDeepfake then 1 else 0;
                    authentic := if isDeepfake then 0 else 1 |} ]
        end in
      let detectionHistory :=
        slice_last 29 (detectionHistory state)
        ++ [ {| at_ms := now;
                outcome := if isDeepfake then "deepfake" else "authentic";
                confidence := confidence;
                fileType := fileType |} ] in
      {| totalFilesAnalyzed := totalFilesAnalyzed state + 1;
         deepfakeDetected :=
           if isDeepfake then deepfakeDetected state + 1 else deepfakeDetected state;
         authenticFiles :=
           if negb isDeepfake then authenticFiles state + 1 else authenticFiles state;
         fileTypes :=
           <[fileType := plus_one (fileTypes state) fileType]> (fileTypes state);
         detectionHistory := detectionHistory;
         dailyUploads := slice_last 30 dailyUploads;
         processingTimes := slice_last 99 (processingTimes state) ++ [processingTime];
         errorCount := errorCount state;
         activeUsers := activeUsers state;
         averageConfidence :=
           ((averageConfidence state * inject_Z (Z.of_nat (totalFilesAnalyzed state))
             + confidence)
            / inject_Z (Z.of_nat (totalFilesAnalyzed state + 1)))%Q |}
  | ERROR_OCCURRED =>
      {| totalFilesAnalyzed := totalFilesAnalyzed state;
         deepfakeDetected := deepfakeDetected state;
         authenticFiles := authenticFiles state;
         fileTypes := fileTypes state;
         detectionHistory := detectionHistory state;
         dailyUploads := dailyUploads state;
         processingTimes := processingTimes state;
         errorCount := errorCount state + 1;
         activeUsers := activeUsers state;
         averageConfidence := averageConfidence state |}
  | OTHER _ => state
  end.

(** A dispatch with the clock it meets. *)
Record Dispatch := {
  today : string;
  now : Z;
  action : Action
}.

Definition dispatch (state : State) (d : Dispatch) : State :=
  analyticsReducer (today d) (now d) state (action d).

(** The state after the dispatches of a run, from the initial state. *)
Definition after (ds : list Dispatch) : State := foldl dispatch initialState ds.

(** The confidences of the files a run has analysed, in order. *)
Definition confidences (ds : list Dispatch) : list Q :=
  omap (fun d => match action d with
                 | FILE_ANALYZED _ _ _ c => Some c
                 | _ => None
                 end) ds.

Definition Qsum (l : list Q) : Q := foldr Qplus 0%Q l.

(** The processing times of the files a run has analysed, in order. *)
Definition times (ds : list Dispatch) : list Q :=
  omap (fun d => match action d with
                 | FILE_ANALYZED _ _ t _ => Some t
                 | _ => None
                 end) ds.

(** What holds of every entry of the daily uploads. *)
Definition day_ok (d : DailyUpload) : Prop :=
  count d = (deepfakes d + authentic d)%nat /\ (1 <= count d)%nat.

Definition is_deepfake (result : string) : bool :=
  String.eqb result "DEEPFAKE" || String.eqb result "FAKE".

(** The files of type [k] a run has analysed, and the files it counted as
    deepfakes. *)
Definition analysed (k : string) (ds : list Dispatch) : list Dispatch :=
  List.filter (fun d => match action d with
                        | FILE_ANALYZED _ ft _ _ => String.eqb ft k
                        | _ => false
                        end) ds.

Definition deepfakes_of (ds : list Dispatch) : list Dispatch :=
  List.filter (fun d => match action d with
                        | FILE_ANALYZED r _ _ _ => is_deepfake r
                        | _ => false
                        end) ds.

Definition errors_of (ds : list Dispatch) : list Dispatch :=
  List.filter (fun d => match action d with
                        | ERROR_OCCURRED => true
                        | _ => false
                        end) ds.

End Analytics.

(** ** Further concrete inputs *)

Module MoreSamples.

Import ApiService UseApi.

(** A transport over which no call gets through, as the browser reports
    it. *)
Definition offline : Transport :=
  fun _ _ => Failed (Some "ERR_NETWORK") "Network Error".

(** No other request under way. *)
Definition nobody : Overlap.Interference := fun _ m => m.

(** Another request to [/health] succeeds while this one waits after its
    first call: the success branch of the interceptor deletes the key. *)
Definition cleared_once : Overlap.Interference :=
  fun n m => if (n =? 0)%nat then delete "/health" m else m.

(** The upload endpoint. *)
Definition detect : AxiosRequestConfig := {| url := Some "/detect"; method := "post" |}.


(** A storage that holds the conservative config and a setting of some
    other part of the page. *)
Definition used_storage : Storage :=
  {| items := {[ STORAGE_KEY := Json Samples.conservative; "theme" := Text "dark" ]};
     denied := false; full := false |}.

(** A backend that answers every call with 200. *)
Definition healthy : Transport :=
  fun _ _ => Replied 200 "OK" (OtherBody "ok").

(** A client that has counted two retries on [/health]. *)
Definition two_used : Service :=
  {| retryAttempts := {[ "/health" := 2%nat ]}; calls := 3; log := [] |}.




(** The client [two_used] after a call to [/detect] that ran out of
    retries. *)
Definition two_paths : Service :=
  {| retryAttempts := {[ "/detect" := 3%nat; "/health" := 2%nat ]};
     calls := 7;
     log := [Sent detect; Slept 1000; Sent detect; Slept 2000;
             Sent detect; Slept 4000; Sent detect] |}.

(** A list of formats in capitals, and a file in capitals. *)
Definition capitals : SupportedFormatsResponse := {| audio := [".WAV"]; image := [] |}.
Definition loud : File := {| name := "SONG.WAV"; size := 1024; type := "audio/wav" |}.

(** [{ uncertainty_range: q }] *)
Definition only_range (q : Q) : PartialConfig :=
  {| new_flip_output_interpretation := Absent;
     new_threshold := Absent;
     new_uncertainty_range := Given (Some q) |}.

(** A dispatch for an authentic file of type [ft]. *)
Definition analysed_as (ft : string) : Analytics.Dispatch :=
  {| Analytics.today := "2025-01-01"; Analytics.now := 0;
     Analytics.action := Analytics.FILE_ANALYZED "REAL" ft 100%Q 0.9%Q |}.

(** Metadata without probabilities. *)
Definition bare : ResultsVisualization.DetectionMetadata :=
  {| ResultsVisualization.prob_fake := None;
     ResultsVisualization.prob_real := None;
     ResultsVisualization.real_probability := None;
     ResultsVisualization.fake_probability := None |}.

End MoreSamples.

(** * Properties *)

(** ** The request client: retries *)

Section RetryPolicy.

Import ApiService Retry.

Variable now : string.

Lemma code_is_special e :
  code_is e "ECONNABORTED" || (code_is e "ECONNREFUSED" || code_is e "ENOTFOUND")
  = special (code e).
Proof.
  unfold code_is, special. destruct (code e) as [x|]; [|reflexivity].
  by rewrite orb_assoc.
Qed.

(** The decision of [handleResponseError], case by case. *)
Lemma handle_special m e :
  special (code e) = true ->
  handleResponseError now m e
  = (Throw (if code_is e "ECONNABORTED" then TIMEOUT_MESSAGE else UNREACHABLE_MESSAGE), m).
Proof.
  intros H. rewrite <- code_is_special in H. unfold handleResponseError.
  destruct (code_is e "ECONNABORTED"); [reflexivity|].
  simpl in H. by rewrite H.
Qed.

Lemma handle_ordinary m e :
  special (code e) = false ->
  handleResponseError now m e
  = match config e with
    | Some cfg =>
        if shouldRetry e && (counter m cfg <? MAX_RETRIES)%nat
        then (Retry (2 ^ Z.of_nat (counter m cfg) * 1000) cfg,
              <[key cfg := S (counter m cfg)]> m)
        else (Throw (api_error (formatApiError now e)), m)
    | None => (Throw (api_error (formatApiError now e)), m)
    end.
Proof.
  intros H. rewrite <- code_is_special in H.
  apply orb_false_elim in H as [H1 H2].
  unfold handleResponseError. rewrite H1, H2.
  destruct (config e) as [cfg|]; [|reflexivity].
  fold (key cfg). fold (counter m cfg).
  destruct (shouldRetry e); [|reflexivity].
  by destruct (counter m cfg <? MAX_RETRIES)%nat.
Qed.

(** What [settle] makes of an outcome axios rejects. *)
Lemma settle_failing cfg o :
  failing o = true ->
  exists e, settle cfg o = inr e /\ config e = Some cfg
            /\ (special (code e) = false -> shouldRetry e = retryable o).
Proof.
  destruct o as [st text body|c m]; simpl; intros H.
  - apply negb_true_iff in H. rewrite H. eexists; split; [reflexivity|].
    split; [reflexivity|]. intros _. reflexivity.
  - eexists; split; [reflexivity|]. split; [reflexivity|].
    simpl. intros ->. reflexivity.
Qed.

Lemma retryable_failing o : retryable o = true -> failing o = true.
Proof.
  destruct o as [st text body|c m]; simpl; [|done].
  intros H. apply andb_true_iff in H as [H1 H2].
  apply negb_true_iff, andb_false_iff. right. lia.
Qed.

Lemma settle_retryable cfg o :
  retryable o = true ->
  exists e, settle cfg o = inr e /\ config e = Some cfg
            /\ special (code e) = false /\ shouldRetry e = true.
Proof.
  destruct o as [st text body|c m]; simpl; intros H.
  - apply andb_true_iff in H as [H1 H2].
    replace ((200 <=? st) && (st <? 300)) with false by lia.
    replace ((400 <=? st) && (st <? 500)) with false by lia.
    eexists; split; [reflexivity|]. simpl. rewrite H1, H2. simpl.
    unfold shouldRetry. simpl. by rewrite H1, H2.
  - apply negb_true_iff in H. eexists; repeat split; done.
Qed.

(** One turn of [request] on a call that fails. *)
Lemma request_failing f T cfg s :
  failing (T (calls s) cfg) = true ->
  request (S f) now T cfg s
  = if retryable (T (calls s) cfg)
       && (counter (retryAttempts s) cfg <? MAX_RETRIES)%nat
    then request f now T cfg (backed_off s cfg)
    else Some (inr (terminal_message now cfg (T (calls s) cfg)), sent s cfg).
Proof.
  intros Hf. unfold terminal_message. cbn [request].
  destruct (T (calls s) cfg) as [st text body|c m] eqn:Ho.
  - cbn [failing] in Hf. apply negb_true_iff in Hf.
    cbn [settle retryable]. rewrite Hf.
    match goal with |- context [handleResponseError now _ ?e] => set (err := e) end.
    assert (Hs : special (code err) = false).
    { subst err. cbn [code].
      destruct ((400 <=? st) && (st <? 500)); [reflexivity|].
      by destruct ((500 <=? st) && (st <? 600)). }
    rewrite (handle_ordinary _ _ Hs).
    pose proof (code_is_special err) as Hc. rewrite Hs in Hc.
    apply orb_false_elim in Hc as [-> ->].
    subst err. cbn [config shouldRetry response status].
    by destruct ((500 <=? st) && (st <? 600)),
                (counter (retryAttempts s) cfg <? MAX_RETRIES)%nat.
  - cbn [settle retryable].
    match goal with |- context [handleResponseError now _ ?e] => set (err := e) end.
    destruct (special c) eqn:Hs.
    + rewrite (handle_special _ err Hs). cbn [negb andb].
      pose proof (code_is_special err) as Hc. cbn [code err] in Hc.
      rewrite Hs in Hc.
      destruct (code_is err "ECONNABORTED"); [reflexivity|].
      cbn [orb] in Hc. by rewrite Hc.
    + rewrite (handle_ordinary _ err Hs).
      pose proof (code_is_special err) as Hc. cbn [code err] in Hc.
      rewrite Hs in Hc. apply orb_false_elim in Hc as [-> ->].
      subst err. cbn [config shouldRetry response negb andb].
      by destruct (counter (retryAttempts s) cfg <? MAX_RETRIES)%nat.
Qed.

(** One turn of [request] on a call that succeeds. *)
Lemma request_fulfilled f T cfg s :
  failing (T (calls s) cfg) = false ->
  exists r, settle cfg (T (calls s) cfg) = inl r
    /\ response_config r = cfg
    /\ request (S f) now T cfg s
       = Some (inl r, {| retryAttempts := onFulfilled (retryAttempts s) r;
                         calls := S (calls s);
                         log := log s ++ [Sent cfg] |}).
Proof.
  intros Hf. cbn [request].
  destruct (T (calls s) cfg) as [st text body|c m]; [|done].
  cbn [failing] in Hf. apply negb_false_iff in Hf.
  cbn [settle]. rewrite Hf. eexists; repeat split.
Qed.

Lemma counter_backed_off s cfg :
  counter (retryAttempts (backed_off s cfg)) cfg = S (counter (retryAttempts s) cfg).
Proof. unfold counter at 1. cbn. by rewrite lookup_insert_eq. Qed.

(** [request] always comes back: every retry raises the counter of the one
    key it counts under, and none is made once the counter is at
    [MAX_RETRIES]. *)
Lemma request_enough f T cfg s :
  (MAX_RETRIES - counter (retryAttempts s) cfg < f)%nat ->
  is_Some (request f now T cfg s).
Proof.
  revert s. induction f as [|f IH]; intros s Hlt; [lia|].
  destruct (failing (T (calls s) cfg)) eqn:Hf.
  - rewrite (request_failing _ _ _ _ Hf).
    destruct (retryable (T (calls s) cfg)); cbn [andb]; [|done].
    destruct (counter (retryAttempts s) cfg <? MAX_RETRIES)%nat eqn:Hc; [|done].
    apply IH. rewrite counter_backed_off.
    apply Nat.ltb_lt in Hc. lia.
  - destruct (request_fulfilled f T cfg s Hf) as (r & _ & _ & ->). done.
Qed.

Lemma request_total T cfg s : is_Some (request (S MAX_RETRIES) now T cfg s).
Proof. apply request_enough. lia. Qed.

(** More fuel does not change a result. *)
Lemma request_more_fuel f f' T cfg s res :
  request f now T cfg s = Some res -> (f <= f')%nat ->
  request f' now T cfg s = Some res.
Proof.
  revert f' s. induction f as [|f IH]; intros f' s H Hle; [done|].
  destruct f' as [|f']; [lia|].
  destruct (failing (T (calls s) cfg)) eqn:Hf.
  - rewrite (request_failing f _ _ _ Hf) in H.
    rewrite (request_failing f' _ _ _ Hf).
    destruct (retryable (T (calls s) cfg)
              && (counter (retryAttempts s) cfg <? MAX_RETRIES)%nat); [|done].
    apply (IH f'); [done|lia].
  - destruct (request_fulfilled f T cfg s Hf) as (r & Hr & _ & E).
    destruct (request_fulfilled f' T cfg s Hf) as (r' & Hr' & _ & E').
    rewrite E'. rewrite <- H, E. congruence.
Qed.

Lemma counter_fresh cfg : counter (retryAttempts fresh) cfg = 0%nat.
Proof. unfold counter. cbn. by rewrite lookup_empty. Qed.

Lemma log_backed_off s cfg :
  log (backed_off s cfg)
  = log s ++ [Sent cfg; Slept (2 ^ Z.of_nat (counter (retryAttempts s) cfg) * 1000)].
Proof. cbn. by rewrite <- app_assoc. Qed.

Lemma calls_backed_off s cfg : calls (backed_off s cfg) = S (calls s).
Proof. reflexivity. Qed.

Lemma is_5xx_retryable o : is_5xx o = true -> retryable o = true.
Proof. by destruct o. Qed.

(** A call that starts with the counter at [c] and meets nothing but
    retryable failures: one step of the descent towards [MAX_RETRIES]. *)
Lemma request_descend f T cfg s :
  always_retryable T ->
  (counter (retryAttempts s) cfg < MAX_RETRIES)%nat ->
  request (S f) now T cfg s = request f now T cfg (backed_off s cfg).
Proof.
  intros HT Hc. rewrite request_failing by apply retryable_failing, HT.
  rewrite HT. apply Nat.ltb_lt in Hc. by rewrite Hc.
Qed.

Lemma request_exhausted f T cfg s :
  failing (T (calls s) cfg) = true ->
  (MAX_RETRIES <= counter (retryAttempts s) cfg)%nat ->
  request (S f) now T cfg s
  = Some (inr (terminal_message now cfg (T (calls s) cfg)), sent s cfg).
Proof.
  intros Hf Hc. rewrite request_failing by done.
  apply Nat.ltb_ge in Hc. rewrite Hc. by rewrite andb_false_r.
Qed.

(** From a fresh client, behind a transport that only fails retryably: four
    calls, three waits, then the error of the fourth call. *)
Lemma request_fresh_retryable T cfg :
  always_retryable T ->
  request (S MAX_RETRIES) now T cfg fresh
  = Some (inr (terminal_message now cfg (T 3%nat cfg)),
          {| retryAttempts := {[key cfg := MAX_RETRIES]};
             calls := 4;
             log := [Sent cfg; Slept 1000; Sent cfg; Slept 2000;
                     Sent cfg; Slept 4000; Sent cfg] |}).
Proof.
  intros HT.
  set (s1 := backed_off fresh cfg).
  set (s2 := backed_off s1 cfg).
  set (s3 := backed_off s2 cfg).
  assert (C1 : counter (retryAttempts s1) cfg = 1%nat)
    by (unfold s1; by rewrite counter_backed_off, counter_fresh).
  assert (C2 : counter (retryAttempts s2) cfg = 2%nat)
    by (unfold s2; by rewrite counter_backed_off, C1).
  assert (C3 : counter (retryAttempts s3) cfg = 3%nat)
    by (unfold s3; by rewrite counter_backed_off, C2).
  unfold MAX_RETRIES.
  rewrite (request_descend 3 T cfg fresh HT)
    by (rewrite counter_fresh; unfold MAX_RETRIES; lia).
  fold s1.
  rewrite (request_descend 2 T cfg s1 HT) by (rewrite C1; unfold MAX_RETRIES; lia).
  fold s2.
  rewrite (request_descend 1 T cfg s2 HT) by (rewrite C2; unfold MAX_RETRIES; lia).
  fold s3.
  rewrite (request_exhausted 0 T cfg s3)
    by (first [apply retryable_failing, HT | rewrite C3; unfold MAX_RETRIES; lia]).
  assert (M3 : retryAttempts s3 = {[key cfg := 3%nat]}).
  { unfold s3 at 1. cbn [backed_off retryAttempts]. rewrite C2.
    unfold s2 at 1. cbn [backed_off retryAttempts]. rewrite C1.
    unfold s1 at 1. cbn [backed_off retryAttempts]. rewrite counter_fresh.
    cbn [retryAttempts fresh]. by rewrite !insert_insert_eq. }
  assert (L3 : log s3 = [Sent cfg; Slept 1000; Sent cfg; Slept 2000;
                         Sent cfg; Slept 4000]).
  { unfold s3. rewrite log_backed_off, C2. unfold s2. rewrite log_backed_off, C1.
    unfold s1. rewrite log_backed_off, counter_fresh. reflexivity. }
  unfold sent. rewrite M3, L3. reflexivity.
Qed.

(** C3. Behind a backend that always answers 5xx, a fresh client sends the
    request four times in all: the original call and exactly three
    retries, after waits of 1, 2 and 4 seconds (the wait before retry [k]
    is [2^(k-1)] seconds), and then raises the error of the last answer. *)
Theorem retry_ceiling (T : Transport) (cfg : AxiosRequestConfig) :
  always_5xx T ->
  exists msg s',
    request (S MAX_RETRIES) now T cfg fresh = Some (inr msg, s')
    /\ log s' = [Sent cfg; Slept 1000; Sent cfg; Slept 2000;
                 Sent cfg; Slept 4000; Sent cfg]
    /\ attempts (log s') = 4%nat
    /\ calls s' = 4%nat
    /\ delays (log s') = [1000; 2000; 4000]
    /\ (forall k, (1 <= k <= 3)%nat ->
          delays (log s') !! (k - 1)%nat = Some (2 ^ (Z.of_nat k - 1) * 1000))
    /\ msg = terminal_message now cfg (T 3%nat cfg).
Proof.
  intros HT.
  assert (HR : always_retryable T) by (intros n c; apply is_5xx_retryable, HT).
  eexists _, _. split; [apply (request_fresh_retryable T cfg HR)|].
  cbn [log calls]. repeat split.
  intros k Hk.
  destruct k as [|[|[|[|k]]]]; try lia; reflexivity.
Qed.

Lemma shouldRetry_spec e :
  shouldRetry e = true
  <-> response e = None \/ exists r, response e = Some r /\ 500 <= status r < 600.
Proof.
  unfold shouldRetry. destruct (response e) as [r|].
  - split.
    + intros H. right. exists r. split; [done|lia].
    + intros [H|(r' & [= <-] & H)]; [done|lia].
  - split; [by left|done].
Qed.

(** [handleResponseError] never takes a counter away nor lowers one. *)
Lemma handle_keeps_counters m e k c :
  m !! k = Some c ->
  exists c', snd (handleResponseError now m e) !! k = Some c' /\ (c <= c')%nat.
Proof.
  intros Hk. destruct (special (code e)) eqn:Hs.
  - rewrite (handle_special _ _ Hs). by exists c.
  - rewrite (handle_ordinary _ _ Hs).
    destruct (config e) as [cfg|]; [|by exists c].
    destruct (shouldRetry e && (counter m cfg <? MAX_RETRIES)%nat); [|by exists c].
    cbn [snd]. destruct (decide (key cfg = k)) as [<-|Hne].
    + rewrite lookup_insert_eq. eexists; split; [done|].
      unfold counter. rewrite Hk. cbn. lia.
    + rewrite lookup_insert_ne by done. by exists c.
Qed.

(** Across a whole [request], a counter is lost only when the request
    succeeded, and then only the counter of the path that was requested. *)
Lemma request_keeps_counters f T cfg s res s' k c :
  request f now T cfg s = Some (res, s') ->
  retryAttempts s !! k = Some c ->
  (exists c', retryAttempts s' !! k = Some c' /\ (c <= c')%nat)
  \/ (exists r, res = inl r /\ url cfg = Some k /\ retryAttempts s' !! k = None).
Proof.
  revert s c. induction f as [|f IH]; intros s c H Hk; [done|].
  destruct (failing (T (calls s) cfg)) eqn:Hf.
  - rewrite (request_failing _ _ _ _ Hf) in H.
    destruct (retryable (T (calls s) cfg)
              && (counter (retryAttempts s) cfg <? MAX_RETRIES)%nat).
    + destruct (decide (key cfg = k)) as [<-|Hne].
      * assert (Hb : retryAttempts (backed_off s cfg) !! key cfg = Some (S c)).
        { cbn. rewrite lookup_insert_eq. unfold counter. by rewrite Hk. }
        destruct (IH _ _ H Hb) as [(c' & Hc' & Hle)|Hdel]; [|by right].
        left. exists c'. split; [done|lia].
      * apply (IH (backed_off s cfg) c H).
        cbn. by rewrite lookup_insert_ne.
    + injection H as <- <-. left. by exists c.
  - destruct (request_fulfilled f T cfg s Hf) as (r & _ & Hcfg & E).
    rewrite E in H. injection H as <- <-. cbn [retryAttempts].
    unfold onFulfilled. rewrite Hcfg.
    destruct (url cfg) as [u|] eqn:Hu; [|left; by exists c].
    destruct (String.eqb u "") eqn:Hu0; [left; by exists c|].
    destruct (decide (u = k)) as [->|Hne].
    + right. exists r. by rewrite lookup_delete_eq.
    + left. exists c. by rewrite lookup_delete_ne.
Qed.

(** A request that succeeds clears the counter of its path. *)
Lemma request_success_clears f T cfg s r s' :
  request f now T cfg s = Some (inl r, s') ->
  str_truthy (url cfg) = true ->
  retryAttempts s' !! key cfg = None.
Proof.
  revert s. induction f as [|f IH]; intros s H Hu; [done|].
  destruct (failing (T (calls s) cfg)) eqn:Hf.
  - rewrite (request_failing _ _ _ _ Hf) in H.
    destruct (retryable (T (calls s) cfg)
              && (counter (retryAttempts s) cfg <? MAX_RETRIES)%nat); [|done].
    by apply (IH _ H).
  - destruct (request_fulfilled f T cfg s Hf) as (r' & _ & Hcfg & E).
    rewrite E in H. injection H as <- <-. cbn [retryAttempts].
    unfold onFulfilled, key, str_or. rewrite Hcfg.
    unfold str_truthy in Hu. destruct (url cfg) as [u|]; [|done].
    apply negb_true_iff in Hu. rewrite Hu. apply lookup_delete_eq.
Qed.

(** C10. The counter of a path is taken away only by a success on that
    path and never by a failure.  So once a call from a fresh client has
    used up its three retries and failed, the counter of its path stays at
    [MAX_RETRIES], and the next failing call to the path is rejected at once,
    after a single attempt and no wait. *)
Theorem counter_survives_failure (T : Transport) (cfg : AxiosRequestConfig) :
  always_retryable T ->
  exists msg1 s1 msg2 s2,
    request (S MAX_RETRIES) now T cfg fresh = Some (inr msg1, s1)
    /\ retryAttempts s1 !! key cfg = Some MAX_RETRIES
    /\ request (S MAX_RETRIES) now T cfg s1 = Some (inr msg2, s2)
    /\ log s2 = log s1 ++ [Sent cfg]
    /\ delays (log s2) = delays (log s1)
    /\ attempts (log s2) = S (attempts (log s1))
    /\ retryAttempts s2 !! key cfg = Some MAX_RETRIES
    /\ (forall f T' cfg' s res s' k c,
          request f now T' cfg' s = Some (res, s') ->
          retryAttempts s !! k = Some c ->
          retryAttempts s' !! k = None ->
          exists r, res = inl r /\ url cfg' = Some k)
    /\ (forall m e k c, m !! k = Some c ->
          is_Some (snd (handleResponseError now m e) !! k)).
Proof.
  intros HT.
  eexists _, _, _, _.
  split; [apply (request_fresh_retryable T cfg HT)|].
  split; [cbn; apply lookup_singleton_eq|].
  split.
  { apply request_exhausted; [apply retryable_failing, HT|].
    unfold counter. cbn. by rewrite lookup_singleton_eq. }
  split; [reflexivity|]. split; [reflexivity|]. split; [reflexivity|].
  split; [cbn; apply lookup_singleton_eq|].
  split.
  - intros f T' cfg' s res s' k c H Hk Hnone.
    destruct (request_keeps_counters _ _ _ _ _ _ _ _ H Hk)
      as [(c' & Hc' & _)|(r & -> & Hu & _)]; [congruence|eauto].
  - intros m e k c Hk.
    destruct (handle_keeps_counters m e k c Hk) as (c' & -> & _). done.
Qed.

(** C2, as the code has it.  [handleResponseError] calls again exactly when
    the error carries none of the codes ECONNABORTED, ECONNREFUSED and
    ENOTFOUND, it has a request config, it had no response at all or one
    with a status in [500,600), and fewer than [MAX_RETRIES] retries are
    counted for its path; the wait is then [2^retries] seconds.  A 4xx
    response is never retried.  An error with the code ECONNREFUSED or
    ENOTFOUND is not retried: it is rejected at once with the fixed message,
    the counters untouched; one with the code ECONNABORTED is rejected at
    once with the fixed timeout message.  Every other error that is not, or
    no longer, retried is rejected with the formatted error, the counters
    untouched; for an error without a response that is the message of the
    transport itself (a fixed text when that is empty).  So a fresh client,
    behind a transport that fails every call without a response and with a
    code that is none of the three, sends four calls, waits 1, 2 and 4
    seconds between them, and then rejects with the message of the
    transport. *)
Theorem retry_decision (m : gmap string nat) (e : AxiosError) :
  (retried (handleResponseError now m e) = true
     <-> special (code e) = false
         /\ (response e = None
             \/ exists r, response e = Some r /\ 500 <= status r < 600)
         /\ exists cfg, config e = Some cfg
                        /\ (counter m cfg < MAX_RETRIES)%nat)
  /\ (forall cfg, retried (handleResponseError now m e) = true ->
        config e = Some cfg ->
        handleResponseError now m e
        = (Retry (2 ^ Z.of_nat (counter m cfg) * 1000) cfg,
           <[key cfg := S (counter m cfg)]> m))
  /\ (forall r, response e = Some r -> 400 <= status r < 500 ->
        retried (handleResponseError now m e) = false)
  /\ (code_is e "ECONNREFUSED" || code_is e "ENOTFOUND" = true ->
        code_is e "ECONNABORTED" = false ->
        handleResponseError now m e = (Throw UNREACHABLE_MESSAGE, m))
  /\ (code_is e "ECONNABORTED" = true ->
        handleResponseError now m e = (Throw TIMEOUT_MESSAGE, m))
  /\ (special (code e) = false ->
        retried (handleResponseError now m e) = false ->
        handleResponseError now m e
        = (Throw (api_error (formatApiError now e)), m))
  /\ (response e = None ->
        api_error (formatApiError now e)
        = if String.eqb (message e) "" then "Unknown error occurred" else message e)
  /\ (forall (T : Transport) (cfg : AxiosRequestConfig) (c : option string)
             (msg : string),
        special c = false ->
        (forall n cfg', T n cfg' = Failed c msg) ->
        request (S MAX_RETRIES) now T cfg fresh
        = Some (inr (if String.eqb msg "" then "Unknown error occurred" else msg),
                {| retryAttempts := {[key cfg := MAX_RETRIES]};
                   calls := 4;
                   log := [Sent cfg; Slept 1000; Sent cfg; Slept 2000;
                           Sent cfg; Slept 4000; Sent cfg] |})).
Proof.
  assert (Hiff : retried (handleResponseError now m e) = true
     <-> special (code e) = false /\ shouldRetry e = true
         /\ exists cfg, config e = Some cfg /\ (counter m cfg < MAX_RETRIES)%nat).
  { destruct (special (code e)) eqn:Hs.
    - rewrite (handle_special _ _ Hs). cbn. split; [done|]. by intros [? _].
    - rewrite (handle_ordinary _ _ Hs).
      destruct (config e) as [cfg|].
      + destruct (shouldRetry e); cbn [andb].
        * destruct (counter m cfg <? MAX_RETRIES)%nat eqn:Hc; cbn.
          -- apply Nat.ltb_lt in Hc. split; [|done]. intros _. eauto.
          -- apply Nat.ltb_ge in Hc. split; [done|].
             intros (_ & _ & cfg' & [= <-] & Hlt). lia.
        * cbn. split; [done|]. by intros (_ & ? & _).
      + cbn. split; [done|]. by intros (_ & _ & cfg & ? & _). }
  split; [by rewrite <- shouldRetry_spec|].
  split.
  { intros cfg Hr Hcfg. apply Hiff in Hr as (Hs & Hsr & cfg' & Hcfg' & Hlt).
    rewrite (handle_ordinary _ _ Hs), Hcfg, Hsr.
    assert (cfg' = cfg) as -> by congruence.
    apply Nat.ltb_lt in Hlt. by rewrite Hlt. }
  split.
  { intros r Hr Hst. apply not_true_is_false. intros H.
    apply Hiff in H as (_ & Hsr & _).
    unfold shouldRetry in Hsr. rewrite Hr in Hsr. lia. }
  split.
  { intros H Hab. unfold handleResponseError. by rewrite Hab, H. }
  split.
  { intros Hab. unfold handleResponseError. by rewrite Hab. }
  split.
  { intros Hs Hr. rewrite (handle_ordinary _ _ Hs) in *.
    destruct (config e) as [cfg|]; [|done].
    by destruct (shouldRetry e && (counter m cfg <? MAX_RETRIES)%nat). }
  split.
  { intros Hr. unfold formatApiError. by rewrite Hr. }
  intros T cfg c msg Hc HT.
  rewrite (request_fresh_retryable T cfg).
  - do 2 f_equal. rewrite HT. unfold terminal_message. cbn [settle].
    match goal with |- context [code_is ?x _] => set (err := x) end.
    pose proof (code_is_special err) as Hs. cbn [code err] in Hs. rewrite Hc in Hs.
    apply orb_false_elim in Hs as [-> ->]. reflexivity.
  - intros n cfg'. rewrite HT. cbn. by rewrite Hc.
Qed.

End RetryPolicy.

(** The retry ceiling on the 503 backend, with the message it ends in. *)
Example retry_ceiling_503 :
  ApiService.request 4 "now" Samples.unavailable Samples.health ApiService.fresh
  = Some (inr "HTTP 503: Service Unavailable",
          {| ApiService.retryAttempts := {[ "/health" := 3%nat ]};
             ApiService.calls := 4;
             ApiService.log :=
               [ApiService.Sent Samples.health; ApiService.Slept 1000;
                ApiService.Sent Samples.health; ApiService.Slept 2000;
                ApiService.Sent Samples.health; ApiService.Slept 4000;
                ApiService.Sent Samples.health] |}).
Proof.
  etransitivity.
  - apply (request_fresh_retryable "now" Samples.unavailable Samples.health).
    intros n c. reflexivity.
  - reflexivity.
Qed.

(** A 404 is rejected after one attempt, with the message of the backend. *)
Example no_retry_on_404 :
  ApiService.request 4 "now" Samples.not_found Samples.health ApiService.fresh
  = Some (inr "Not Found",
          {| ApiService.retryAttempts := ∅;
             ApiService.calls := 1;
             ApiService.log := [ApiService.Sent Samples.health] |}).
Proof. reflexivity. Qed.

Lemma retry_ceiling_witness :
  Retry.always_5xx Samples.unavailable
  /\ exists msg s',
       ApiService.request 4 "now" Samples.unavailable Samples.health ApiService.fresh
       = Some (inr msg, s')
       /\ ApiService.delays (ApiService.log s') = [1000; 2000; 4000].
Proof.
  assert (H : Retry.always_5xx Samples.unavailable) by (intros n c; reflexivity).
  split; [exact H|].
  destruct (retry_ceiling "now" Samples.unavailable Samples.health H)
    as (msg & s' & E & _ & _ & _ & D & _).
  exists msg, s'. split; [exact E | exact D].
Defined.

Lemma counter_survives_failure_witness :
  Retry.always_retryable Samples.unavailable
  /\ exists msg1 s1 msg2 s2,
       ApiService.request 4 "now" Samples.unavailable Samples.health ApiService.fresh
       = Some (inr msg1, s1)
       /\ ApiService.request 4 "now" Samples.unavailable Samples.health s1
          = Some (inr msg2, s2)
       /\ ApiService.log s2 = ApiService.log s1 ++ [ApiService.Sent Samples.health].
Proof.
  assert (H : Retry.always_retryable Samples.unavailable) by (intros n c; reflexivity).
  split; [exact H|].
  destruct (counter_survives_failure "now" Samples.unavailable Samples.health H)
    as (msg1 & s1 & msg2 & s2 & E1 & _ & E2 & L & _).
  exists msg1, s1, msg2, s2. repeat split; assumption.
Defined.

(** C2, as stated, fails: a refused connection is a failure with no response
    at all, and it is not retried. *)
Lemma connection_refused_not_retried :
  ~ (Retry.retried (ApiService.handleResponseError "now" ∅ Samples.refused) = true
     <-> (ApiService.response Samples.refused = None
          \/ exists r, ApiService.response Samples.refused = Some r
                       /\ 500 <= ApiService.status r < 600)).
Proof.
  intros [_ H]. specialize (H (or_introl eq_refl)). discriminate H.
Qed.

(** What the refused connection gets instead: the fixed message, at once. *)
Example connection_refused_thrown :
  ApiService.handleResponseError "now" ∅ Samples.refused
  = (ApiService.Throw ApiService.UNREACHABLE_MESSAGE, ∅).
Proof. reflexivity. Qed.

Lemma retry_decision_witness :
  Retry.retried (ApiService.handleResponseError "now" ∅ Samples.network_error) = true
  /\ ApiService.handleResponseError "now" ∅ Samples.refused
     = (ApiService.Throw ApiService.UNREACHABLE_MESSAGE, ∅)
  /\ ApiService.request 4 "now" MoreSamples.offline Samples.health ApiService.fresh
     = Some (inr "Network Error",
             {| ApiService.retryAttempts := {[ Retry.key Samples.health := 3%nat ]};
                ApiService.calls := 4;
                ApiService.log :=
                  [ApiService.Sent Samples.health; ApiService.Slept 1000;
                   ApiService.Sent Samples.health; ApiService.Slept 2000;
                   ApiService.Sent Samples.health; ApiService.Slept 4000;
                   ApiService.Sent Samples.health] |}).
Proof.
  split; [|split].
  - apply (proj1 (retry_decision "now" ∅ Samples.network_error)).
    split; [reflexivity|]. split; [left; reflexivity|].
    exists Samples.health. split; [reflexivity|].
    unfold Retry.counter. rewrite lookup_empty. cbn. unfold ApiService.MAX_RETRIES. lia.
  - apply (proj1 (proj2 (proj2 (proj2 (retry_decision "now" ∅ Samples.refused)))));
      reflexivity.
  - apply (proj2 (proj2 (proj2 (proj2 (proj2 (proj2 (proj2
             (retry_decision "now" ∅ Samples.refused)))))))
             MoreSamples.offline Samples.health (Some "ERR_NETWORK") "Network Error").
    + reflexivity.
    + intros n cfg'. reflexivity.
Defined.

(** ** The request client: upload progress *)

Section UploadProgress.

Import ApiService.

Lemma percent_div l t : 0 < t -> percent l t = (200 * l + t) / (2 * t).
Proof.
  intros Ht. destruct t as [|p|p]; try lia.
  unfold percent, Math_round.
  assert (E : (inject_Z (l * 100) / inject_Z (Z.pos p) + (1 # 2)
               == (200 * l + Z.pos p) # (2 * p))%Q).
  { unfold Qeq, Qdiv, Qmult, Qplus, Qinv, inject_Z. cbn [Qnum Qden]. lia. }
  rewrite E. unfold Qfloor. by rewrite Pos2Z.inj_mul.
Qed.

Lemma floor_div l t : 0 < t -> Math_floor (inject_Z (l * 100) / inject_Z t) = l * 100 / t.
Proof.
  intros Ht. destruct t as [|p|p]; try lia.
  unfold Math_floor.
  assert (E : (inject_Z (l * 100) / inject_Z (Z.pos p) == (l * 100) # p)%Q).
  { unfold Qeq, Qdiv, Qmult, Qinv, inject_Z. cbn [Qnum Qden]. lia. }
  rewrite E. reflexivity.
Qed.

Lemma percent_mono l l' t : 0 < t -> l <= l' -> percent l t <= percent l' t.
Proof.
  intros Ht Hl. rewrite !percent_div by done.
  apply Z.div_le_mono; lia.
Qed.

Lemma percent_full t : 0 < t -> percent t t = 100.
Proof.
  intros Ht. rewrite percent_div by done.
  replace (200 * t + t) with (100 * (2 * t) + t) by lia.
  rewrite Z.div_add_l by lia. rewrite Z.div_small by lia. lia.
Qed.

(** C6, as the code has it.  For a progress event with [l] bytes loaded of
    [t > 0], the callback is given [Math.round(l * 100 / t)]: the integer
    nearest to the quotient, a tie going up, which is the floor of the
    quotient or one more.  For a fixed total the percentage does not
    decrease when the loaded count grows, and an event with everything
    loaded reports 100. *)
Theorem percentage_rounds (l t : Z) :
  0 < t ->
  onUploadProgress true {| loaded := l; total := Some t |}
  = Some {| up_loaded := l; up_total := t; percentage := (200 * l + t) / (2 * t) |}
  /\ percent l t = Math_round (inject_Z (l * 100) / inject_Z t)
  /\ 2 * Z.abs (percent l t * t - l * 100) <= t
  /\ Math_floor (inject_Z (l * 100) / inject_Z t) <= percent l t
     <= Math_floor (inject_Z (l * 100) / inject_Z t) + 1
  /\ (forall l', l <= l' -> percent l t <= percent l' t)
  /\ percent t t = 100.
Proof.
  intros Ht.
  split.
  { unfold onUploadProgress. cbn [total loaded].
    replace (t =? 0) with false by lia. cbn [andb negb].
    by rewrite percent_div. }
  split; [reflexivity|].
  rewrite floor_div, percent_div by done.
  split; [|split; [|split]].
  - pose proof (Z.div_mod (200 * l + t) (2 * t) ltac:(lia)) as D.
    pose proof (Z.mod_pos_bound (200 * l + t) (2 * t) ltac:(lia)) as B.
    nia.
  - pose proof (Z.div_mod (200 * l + t) (2 * t) ltac:(lia)) as D.
    pose proof (Z.mod_pos_bound (200 * l + t) (2 * t) ltac:(lia)) as B.
    pose proof (Z.div_mod (l * 100) t ltac:(lia)) as D'.
    pose proof (Z.mod_pos_bound (l * 100) t ltac:(lia)) as B'.
    nia.
  - intros l' Hl. rewrite <- !percent_div by done. by apply percent_mono.
  - by apply percent_full.
Qed.

End UploadProgress.

Lemma percentage_rounds_witness :
  0 < 3
  /\ ApiService.onUploadProgress true {| ApiService.loaded := 2; ApiService.total := Some 3 |}
     = Some {| ApiService.up_loaded := 2; ApiService.up_total := 3;
               ApiService.percentage := (200 * 2 + 3) / (2 * 3) |}.
Proof.
  split; [lia|]. apply (proj1 (percentage_rounds 2 3 ltac:(lia))).
Defined.

(** C6, as stated, fails: two bytes of three are reported as 67, and the
    floor of 200/3 is 66. *)
Lemma two_thirds_reported_as_67 :
  ApiService.percentage
    <$> ApiService.onUploadProgress true
          {| ApiService.loaded := 2; ApiService.total := Some 3 |}
  = Some 67
  /\ Math_floor (inject_Z (2 * 100) / inject_Z 3) = 66
  /\ ApiService.percentage
       <$> ApiService.onUploadProgress true
             {| ApiService.loaded := 2; ApiService.total := Some 3 |}
     <> Some (Math_floor (inject_Z (2 * 100) / inject_Z 3)).
Proof. repeat split. discriminate. Qed.

(** ** The request client: file validation *)

Section Validation.

Import ApiService Names.

Lemma split_nonempty sep s : split sep s <> [].
Proof.
  destruct s as [|c s]; cbn [split]; [done|].
  destruct (Ascii.eqb c sep); [done|]. by destruct (split sep s).
Qed.

Lemma split_no_sep sep s : contains sep s = false -> split sep s = [s].
Proof.
  induction s as [|c s IH]; cbn [split contains]; [done|].
  intros H. apply orb_false_elim in H as [-> H]. by rewrite (IH H).
Qed.

(** What comes after the last separator is the last piece. *)
Lemma split_last sep pre ext :
  exists h t, split sep (pre +:+ String sep ext) = h :: t
              /\ t <> [] /\ last t = last (split sep ext).
Proof.
  induction pre as [|c pre (h & t & E & Ht & Hl)].
  - change ("" +:+ String sep ext) with (String sep ext).
    cbn [split]. rewrite Ascii.eqb_refl. eexists _, _. split; [done|].
    split; [apply split_nonempty|done].
  - change (String c pre +:+ String sep ext)
      with (String c (pre +:+ String sep ext)).
    cbn [split]. rewrite E. destruct (Ascii.eqb c sep).
    + eexists _, _. split; [done|]. split; [done|].
      destruct t; [done|]. by rewrite last_cons_cons.
    + eexists _, _. split; [done|]. done.
Qed.

Lemma pop_after_last_sep sep pre ext :
  contains sep ext = false ->
  last (split sep (pre +:+ String sep ext)) = Some ext.
Proof.
  intros H. destruct (split_last sep pre ext) as (h & t & -> & Ht & Hl).
  destruct t; [done|]. rewrite last_cons_cons, Hl.
  by rewrite (split_no_sep _ _ H).
Qed.

(** With a dot in the name, the extension checked is what follows the last
    dot, in lower case, behind a dot. *)
Lemma fileExtension_dotted pre ext sz ty :
  contains "." ext = false ->
  fileExtension {| name := pre +:+ "." +:+ ext; size := sz; type := ty |}
  = "." +:+ toLowerCase ext.
Proof.
  intros H. unfold fileExtension. cbn [name].
  change ("." +:+ ext) with (String "." ext).
  by rewrite (pop_after_last_sep _ _ _ H).
Qed.

(** Without a dot, it is the whole name that is checked. *)
Lemma fileExtension_no_dot file :
  contains "." (name file) = false ->
  fileExtension file = "." +:+ toLowerCase (name file).
Proof.
  intros H. unfold fileExtension. by rewrite (split_no_sep _ _ H).
Qed.

Lemma validateFile_no_dot formats file :
  contains "." (name file) = false ->
  includes (audio formats ++ image formats) ("." +:+ toLowerCase (name file)) = true ->
  size file <= maxSize ->
  validateFile (inl formats) file = {| valid := true; validation_error := None |}.
Proof.
  intros H Hin Hsz. unfold validateFile.
  rewrite (fileExtension_no_dot _ H), Hin. cbn [negb].
  by replace (maxSize <? size file) with false by lia.
Qed.

End Validation.

(** C7. A file called "wav" has no dot in its name, and [validateFile]
    accepts it when ".wav" is a supported format: the piece that
    [split('.').pop()] yields is then the whole name.  A name without a dot
    is turned down as an unsupported format only when it is not, in lower
    case, a supported extension less its dot, as "README" is not. *)
Theorem extensionless_name_accepted :
  Names.contains "." (ApiService.name Samples.bare_wav) = false
  /\ ApiService.fileExtension Samples.bare_wav = ".wav"
  /\ ApiService.validateFile Samples.wav_and_png Samples.bare_wav
     = {| ApiService.valid := true; ApiService.validation_error := None |}
  /\ ApiService.validateFile Samples.wav_and_png Samples.readme
     = {| ApiService.valid := false;
          ApiService.validation_error :=
            Some "Unsupported file format: .readme. Supported formats: .wav, .png" |}
  /\ ApiService.fileExtension Samples.song = ".wav".
Proof. repeat split. Qed.

(** ** The analysis hook *)

Section FileAnalysis.

Import ApiService UseApi.

Lemma live_spec c h : c ∈ live h <-> c ∈ pending h /\ c ∉ aborted h.
Proof. unfold live. rewrite list_elem_of_filter. tauto. Qed.

Lemma is_pending_true c h : c ∈ pending h -> is_pending c h = true.
Proof. intros H. unfold is_pending. by apply bool_decide_eq_true. Qed.

Lemma is_aborted_false c h : c ∉ aborted h -> is_aborted c h = false.
Proof. intros H. unfold is_aborted. by apply bool_decide_eq_false. Qed.

(** The answer of a live request reaches the state. *)
Lemma live_response_delivered c r h :
  c ∈ live h ->
  exists h', step h (Resolved c r) = Some h'
             /\ result (state h') = Some r
             /\ isAnalyzing (state h') = false
             /\ progress (state h') = 100
             /\ uploadedFile (state h') = uploadedFile (state h).
Proof.
  intros [Hp Ha]%live_spec. cbn [step].
  rewrite (is_pending_true _ _ Hp), (is_aborted_false _ _ Ha). cbn [andb negb].
  eexists. split; [reflexivity|]. done.
Qed.

Lemma not_in_after_abort (c r : nat) (X : gset nat) :
  Some r <> Some c -> c ∉ X -> c ∉ {[r]} ∪ X.
Proof.
  intros Hne Hc. rewrite not_elem_of_union, not_elem_of_singleton.
  split; [congruence|done].
Qed.

(** Only the controller the ref holds is ever aborted: a request whose
    controller was replaced in the ref can no longer be cancelled. *)
Lemma step_keeps_orphan c h ev h' :
  (c < created h)%nat -> abortControllerRef h <> Some c -> c ∉ aborted h ->
  step h ev = Some h' ->
  (c < created h')%nat /\ abortControllerRef h' <> Some c /\ c ∉ aborted h'.
Proof.
  intros Hc Hr Ha Hs.
  destruct ev; cbn [step] in Hs.
  - injection Hs as <-. unfold analyzeFile.
    destruct (negb (valid (validateFile formats file))); cbn; [done|].
    repeat split; [lia| |done]. intros [= E]. lia.
  - destruct (is_pending c0 h && negb (is_aborted c0 h)); [|done].
    injection Hs as <-. unfold onProgress.
    by destruct (onUploadProgress true e).
  - destruct (is_pending c0 h && negb (is_aborted c0 h)); [|done].
    by injection Hs as <-.
  - destruct (is_pending c0 h && negb (is_aborted c0 h)); [|done].
    by injection Hs as <-.
  - destruct (is_pending c0 h && is_aborted c0 h); [|done].
    by injection Hs as <-.
  - injection Hs as <-. unfold cancelAnalysis.
    destruct (abortControllerRef h) as [r|] eqn:E; [|by rewrite E].
    cbn. rewrite E. repeat split; [done..|]. by apply not_in_after_abort.
  - injection Hs as <-. unfold resetAnalysis. cbn.
    destruct (abortControllerRef h) as [r|] eqn:E; cbn; [|by rewrite E].
    repeat split; [done..|]. by apply not_in_after_abort.
  - injection Hs as <-. unfold unmount.
    destruct (abortControllerRef h) as [r|] eqn:E; [|by rewrite E].
    cbn. rewrite E. repeat split; [done..|]. by apply not_in_after_abort.
Qed.

Lemma orphan_never_aborted c h evs h' :
  (c < created h)%nat -> abortControllerRef h <> Some c -> c ∉ aborted h ->
  run h evs = Some h' ->
  c ∉ aborted h'.
Proof.
  revert h. induction evs as [|ev evs IH]; intros h Hc Hr Ha Hrun; cbn in Hrun.
  - by injection Hrun as <-.
  - destruct (step h ev) as [h1|] eqn:Hs; [|done].
    destruct (step_keeps_orphan c h ev h1 Hc Hr Ha Hs) as (Hc1 & Hr1 & Ha1).
    by apply (IH h1).
Qed.

(** Controllers are numbered in the order of their creation: in a state the
    hook can reach, the ref and the pending requests name controllers that
    exist. *)
Lemma step_numbered h ev h' :
  (forall c, c ∈ pending h -> (c < created h)%nat) ->
  step h ev = Some h' ->
  forall c, c ∈ pending h' -> (c < created h')%nat.
Proof.
  intros Hwf Hs c.
  assert (Hset : forall c0, c ∈ pending (settled c0 h) -> (c < created h)%nat).
  { intros c0. cbn [pending settled]. rewrite list_elem_of_filter.
    intros [_ ?]. by apply Hwf. }
  destruct ev; cbn [step] in Hs.
  - injection Hs as <-. unfold analyzeFile.
    destruct (negb (valid (validateFile formats file))); cbn; [apply Hwf|].
    rewrite elem_of_app, list_elem_of_singleton.
    intros [H| ->]; [apply Hwf in H|]; lia.
  - destruct (is_pending c0 h && negb (is_aborted c0 h)); [|done].
    injection Hs as <-. unfold onProgress.
    destruct (onUploadProgress true e); apply Hwf.
  - destruct (is_pending c0 h && negb (is_aborted c0 h)); [|done].
    injection Hs as <-. apply Hset.
  - destruct (is_pending c0 h && negb (is_aborted c0 h)); [|done].
    injection Hs as <-. apply Hset.
  - destruct (is_pending c0 h && is_aborted c0 h); [|done].
    injection Hs as <-. apply Hset.
  - injection Hs as <-. unfold cancelAnalysis.
    destruct (abortControllerRef h); apply Hwf.
  - injection Hs as <-. unfold resetAnalysis. cbn.
    destruct (abortControllerRef h); apply Hwf.
  - injection Hs as <-. unfold unmount.
    destruct (abortControllerRef h); apply Hwf.
Qed.

Lemma run_numbered evs h h' :
  (forall c, c ∈ pending h -> (c < created h)%nat) ->
  run h evs = Some h' ->
  forall c, c ∈ pending h' -> (c < created h')%nat.
Proof.
  revert h. induction evs as [|ev evs IH]; intros h Hwf Hrun; cbn in Hrun.
  - by injection Hrun as <-.
  - destruct (step h ev) as [h1|] eqn:Hs; [|done].
    apply (IH h1); [|done]. by apply (step_numbered h ev).
Qed.

(** C1, as the code has it.  In every state the hook can reach,
    [analyzeFile] aborts nothing: when the file is accepted it resets the
    state, puts a new abort controller in the ref in place of the old one
    and sends its request.  Every request that was live before is live
    afterwards, the response of each of them is still written into the state
    when it arrives, and nothing that happens later aborts any of them. *)
Theorem analyze_replaces_controller
    (evs : list Event) (h : Hook)
    (formats : SupportedFormatsResponse + string) (file : File) :
  run initial evs = Some h ->
  valid (validateFile formats file) = true ->
  let h' := analyzeFile formats file h in
  state h' = {| isAnalyzing := true; progress := 0; error := None;
                result := None; uploadedFile := Some file |}
  /\ aborted h' = aborted h
  /\ abortControllerRef h' = Some (created h)
  /\ pending h' = pending h ++ [created h]
  /\ (forall c, c ∈ live h -> c ∈ live h')
  /\ (forall c r, c ∈ live h ->
        exists h'', step h' (Resolved c r) = Some h''
                    /\ result (state h'') = Some r)
  /\ (forall c evs' h2, c ∈ live h -> run h' evs' = Some h2 -> c ∉ aborted h2).
Proof.
  intros Hreach Hv h'.
  assert (Hnum : forall c, c ∈ pending h -> (c < created h)%nat).
  { apply (run_numbered evs initial); [|done]. cbn. intros c Hc.
    by apply elem_of_nil in Hc. }
  subst h'. unfold analyzeFile. rewrite Hv. cbn [negb].
  match goal with |- context [step ?x _] => set (h' := x) end.
  assert (Hlive : forall c, c ∈ live h -> c ∈ live h').
  { intros c [Hp Ha]%live_spec. apply live_spec. subst h'. cbn [pending aborted].
    split; [|done]. apply elem_of_app. by left. }
  repeat split; [exact Hlive| |].
  - intros c r Hc.
    destruct (live_response_delivered c r h' (Hlive c Hc)) as (h'' & E & R & _).
    by exists h''.
  - intros c evs' h2 [Hp Ha]%live_spec Hrun.
    apply (orphan_never_aborted c h' evs' h2); [| |done|done].
    + subst h'. cbn [created]. apply Hnum in Hp. lia.
    + subst h'. cbn [abortControllerRef]. intros [= E]. apply Hnum in Hp. lia.
Qed.

(** C8, as the code has it.  [cancelAnalysis] looks at the ref, not at the
    state: with no controller in the ref (as in the idle state, or after a
    reset) it changes nothing; with one, whether its request is still on
    the wire or has long settled, it aborts that controller, clears
    [isAnalyzing] and sets the fixed message, and leaves result, progress
    and file as they are.  Whether an analysis is running is what
    [canCancel] tells the caller. *)
Theorem cancel_looks_at_the_ref (h : Hook) :
  (abortControllerRef h = None -> cancelAnalysis h = h)
  /\ (forall c, abortControllerRef h = Some c ->
        aborted (cancelAnalysis h) = {[c]} ∪ aborted h
        /\ state (cancelAnalysis h)
           = {| isAnalyzing := false; progress := progress (state h);
                error := Some CANCELLED_BY_USER; result := result (state h);
                uploadedFile := uploadedFile (state h) |}
        /\ abortControllerRef (cancelAnalysis h) = Some c
        /\ pending (cancelAnalysis h) = pending h
        /\ created (cancelAnalysis h) = created h)
  /\ cancelAnalysis initial = initial
  /\ cancelAnalysis (resetAnalysis h) = resetAnalysis h
  /\ (canCancel h = true <->
        isAnalyzing (state h) = true /\ exists c, abortControllerRef h = Some c).
Proof.
  split; [|split; [|split; [|split]]].
  - intros E. unfold cancelAnalysis. by rewrite E.
  - intros c E. unfold cancelAnalysis. rewrite E. cbn. by rewrite E.
  - reflexivity.
  - by destruct h as [st [c|] cr ab pe].
  - unfold canCancel. rewrite andb_true_iff, bool_decide_eq_true.
    destruct (abortControllerRef h) as [c|]; split.
    + intros [? _]. eauto.
    + intros [? _]. done.
    + intros [_ ?]. done.
    + intros [_ [c ?]]. done.
Qed.

End FileAnalysis.

Lemma analyze_replaces_controller_witness :
  UseApi.run UseApi.initial [UseApi.AnalyzeFile Samples.wav_and_png Samples.song]
  = Some (UseApi.analyzeFile Samples.wav_and_png Samples.song UseApi.initial)
  /\ ApiService.valid (ApiService.validateFile Samples.wav_and_png Samples.photo) = true
  /\ UseApi.abortControllerRef
       (UseApi.analyzeFile Samples.wav_and_png Samples.photo
          (UseApi.analyzeFile Samples.wav_and_png Samples.song UseApi.initial))
     = Some 1%nat
  /\ UseApi.aborted
       (UseApi.analyzeFile Samples.wav_and_png Samples.photo
          (UseApi.analyzeFile Samples.wav_and_png Samples.song UseApi.initial))
     = ∅.
Proof.
  assert (H : ApiService.valid
                (ApiService.validateFile Samples.wav_and_png Samples.photo) = true)
    by reflexivity.
  split; [reflexivity|]. split; [exact H|].
  destruct (analyze_replaces_controller
              [UseApi.AnalyzeFile Samples.wav_and_png Samples.song]
              (UseApi.analyzeFile Samples.wav_and_png Samples.song UseApi.initial)
              Samples.wav_and_png Samples.photo eq_refl H) as (_ & A & R & _).
  split; [exact R | exact A].
Defined.

(** C1, as stated, fails: after a second [analyzeFile] the first request is
    still live next to the second, no signal has fired, and the response of
    the first is written into the state (beside the file of the second). *)
Lemma second_analysis_keeps_first_live :
  UseApi.run UseApi.initial
    [UseApi.AnalyzeFile Samples.wav_and_png Samples.song;
     UseApi.AnalyzeFile Samples.wav_and_png Samples.photo]
  = Some Samples.two_uploads
  /\ UseApi.live Samples.two_uploads = [0%nat; 1%nat]
  /\ UseApi.aborted Samples.two_uploads = ∅
  /\ UseApi.state <$> UseApi.step Samples.two_uploads (UseApi.Resolved 0 Samples.verdict_fake)
     = Some {| UseApi.isAnalyzing := false; UseApi.progress := 100;
               UseApi.error := None;
               UseApi.result := Some Samples.verdict_fake;
               UseApi.uploadedFile := Some Samples.photo |}
  /\ (UseApi.result ∘ UseApi.state)
       <$> UseApi.run Samples.two_uploads
             [UseApi.Resolved 1 Samples.verdict_real;
              UseApi.Resolved 0 Samples.verdict_fake]
     = Some (Some Samples.verdict_fake).
Proof. repeat split. Qed.

Lemma cancel_looks_at_the_ref_witness :
  UseApi.cancelAnalysis UseApi.initial = UseApi.initial
  /\ UseApi.error (UseApi.state (UseApi.cancelAnalysis Samples.two_uploads))
     = Some UseApi.CANCELLED_BY_USER
  /\ UseApi.aborted (UseApi.cancelAnalysis Samples.two_uploads) = {[1%nat]} ∪ ∅.
Proof.
  split; [|split].
  - apply (proj1 (cancel_looks_at_the_ref UseApi.initial)). reflexivity.
  - destruct (proj1 (proj2 (cancel_looks_at_the_ref Samples.two_uploads)) 1%nat eq_refl)
      as (_ & -> & _). reflexivity.
  - destruct (proj1 (proj2 (cancel_looks_at_the_ref Samples.two_uploads)) 1%nat eq_refl)
      as (A & _). exact A.
Defined.

(** C8, as stated, fails: after an analysis has succeeded nothing is
    uploading any more, and [cancelAnalysis] still changes the state: it sets
    the error message beside the result. *)
Lemma cancel_after_success_sets_error :
  UseApi.run UseApi.initial
    [UseApi.AnalyzeFile Samples.wav_and_png Samples.song;
     UseApi.Resolved 0 Samples.verdict_fake]
  = Some Samples.succeeded
  /\ UseApi.pending Samples.succeeded = []
  /\ UseApi.isAnalyzing (UseApi.state Samples.succeeded) = false
  /\ UseApi.error (UseApi.state Samples.succeeded) = None
  /\ UseApi.state (UseApi.cancelAnalysis Samples.succeeded)
     = {| UseApi.isAnalyzing := false; UseApi.progress := 100;
          UseApi.error := Some "Analysis cancelled by user";
          UseApi.result := Some Samples.verdict_fake;
          UseApi.uploadedFile := Some Samples.song |}
  /\ UseApi.state (UseApi.cancelAnalysis Samples.succeeded)
     <> UseApi.state Samples.succeeded.
Proof. repeat split. discriminate. Qed.

(** ** The calibration hook *)

Section CalibrationStore.

Import UseApi.

(** C9. [setConfig] merges the update over the config it holds: a field the
    update does not have keeps its value, a field it has takes the new one.
    When the storage takes the write, the merged config is what it holds
    under the key, and a hook instance initialized afterwards starts with
    exactly the merged config. *)
Theorem set_then_reload
    (config : AudioCalibrationConfig) (newConfig : PartialConfig)
    (localStorage : Storage) :
  denied localStorage = false ->
  full localStorage = false ->
  let updated := fst (setConfig config newConfig localStorage) in
  let stored := snd (setConfig config newConfig localStorage) in
  updated = spread config newConfig
  /\ (new_flip_output_interpretation newConfig = Absent ->
      flip_output_interpretation updated = flip_output_interpretation config)
  /\ (new_threshold newConfig = Absent -> threshold updated = threshold config)
  /\ (new_uncertainty_range newConfig = Absent ->
      uncertainty_range updated = uncertainty_range config)
  /\ (forall v, new_flip_output_interpretation newConfig = Given v ->
        flip_output_interpretation updated = v)
  /\ (forall v, new_threshold newConfig = Given v -> threshold updated = v)
  /\ (forall v, new_uncertainty_range newConfig = Given v ->
        uncertainty_range updated = v)
  /\ items stored !! STORAGE_KEY = Some (Json updated)
  /\ initialConfig stored = updated.
Proof.
  intros Hd Hf updated stored. subst updated stored.
  unfold setConfig. rewrite Hd, Hf. cbn [fst snd orb].
  split; [reflexivity|].
  unfold spread.
  cbn [flip_output_interpretation UseApi.threshold uncertainty_range].
  split; [by intros ->|]. split; [by intros ->|]. split; [by intros ->|].
  split; [by intros v ->|]. split; [by intros v ->|]. split; [by intros v ->|].
  split.
  - cbn [items]. apply lookup_insert_eq.
  - unfold initialConfig. cbn [denied items].
    by rewrite lookup_insert_eq.
Qed.

(** With nothing stored, or something unreadable, a hook starts with the
    defaults. *)
Lemma initialConfig_default localStorage :
  (denied localStorage = true
   \/ items localStorage !! STORAGE_KEY = None
   \/ exists s, items localStorage !! STORAGE_KEY = Some (Text s)) ->
  initialConfig localStorage = defaultAudioConfig.
Proof.
  unfold initialConfig. intros [->|[->|[s ->]]]; [done| |];
    by destruct (denied localStorage).
Qed.

(** A write the storage refuses is swallowed: the state is updated, the
    storage is as before. *)
Lemma setConfig_refused config newConfig localStorage :
  denied localStorage || full localStorage = true ->
  setConfig config newConfig localStorage = (spread config newConfig, localStorage).
Proof. intros H. unfold setConfig. by rewrite H. Qed.

(** [resetConfig] restores the defaults and removes the stored copy. *)
Lemma reset_then_reload localStorage :
  fst (resetConfig localStorage) = defaultAudioConfig
  /\ initialConfig (snd (resetConfig localStorage)) = defaultAudioConfig.
Proof.
  split; [reflexivity|]. unfold resetConfig. cbn [snd].
  destruct (denied localStorage) eqn:E; unfold initialConfig.
  - by rewrite E.
  - cbn [denied items]. by rewrite lookup_delete_eq.
Qed.

End CalibrationStore.

(** [set({threshold: 0.7})] on a hook that started with the defaults, then a
    new hook: the threshold is 0.7, the other fields are the defaults. *)
Example threshold_survives_reload :
  UseApi.initialConfig Samples.empty_storage = UseApi.defaultAudioConfig
  /\ UseApi.initialConfig
       (snd (UseApi.setConfig (UseApi.initialConfig Samples.empty_storage)
               (Samples.only_threshold 0.7%Q) Samples.empty_storage))
     = {| UseApi.flip_output_interpretation := Some false;
          UseApi.threshold := Some 0.7%Q;
          UseApi.uncertainty_range := Some 0.1%Q |}.
Proof. split; reflexivity. Qed.

(** The "Conservative" preset of the panel, applied to the defaults, is what
    a new hook starts with. *)
Example preset_survives_reload :
  UseApi.initialConfig
    (snd (UseApi.setConfig UseApi.defaultAudioConfig
            (AudioCalibration.applyPreset "threshold" 0.65%Q) Samples.empty_storage))
  = Samples.conservative.
Proof. reflexivity. Qed.

Lemma set_then_reload_witness :
  UseApi.denied Samples.empty_storage = false
  /\ UseApi.full Samples.empty_storage = false
  /\ UseApi.initialConfig
       (snd (UseApi.setConfig UseApi.defaultAudioConfig
               (Samples.only_threshold 0.7%Q) Samples.empty_storage))
     = fst (UseApi.setConfig UseApi.defaultAudioConfig
              (Samples.only_threshold 0.7%Q) Samples.empty_storage).
Proof.
  split; [reflexivity|]. split; [reflexivity|].
  apply (set_then_reload UseApi.defaultAudioConfig (Samples.only_threshold 0.7%Q)
           Samples.empty_storage eq_refl eq_refl).
Defined.

(** ** The verdict interpreter *)

Section VerdictInterpreter.

Import UseApi Verdict.


(** The first rule wins: inside the band the verdict is [UNCERTAIN],
    whatever the comparison with the threshold. *)
Lemma interpret_in_band s config :
  inBand (uncertaintyBand config) (pFake s config) = true ->
  interpret s config = UNCERTAIN.
Proof. intros H. unfold interpret. by rewrite H. Qed.

Lemma interpret_outside_band s config :
  inBand (uncertaintyBand config) (pFake s config) = false ->
  interpret s config
  = if Qle_bool (threshold config) (pFake s config) then FAKE else REAL.
Proof. intros H. unfold interpret. by rewrite H. Qed.

(** C4. The interpreter reads a score [s] in [[0,1]] as the fake-probability
    [s], or [1 - s] under the flip, which is again in [[0,1]]; the verdict
    depends on the score and the flip through that probability only.  With
    threshold 0.5 and no band, 0.8 is fake unflipped and real flipped (the
    probability is then 0.2). *)
Theorem flip_semantics (s : Q) (config : CalibrationConfig) :
  (0 <= s <= 1)%Q ->
  pFake s config = (if flipOutputInterpretation config then 1 - s else s)%Q
  /\ (0 <= pFake s config <= 1)%Q
  /\ interpret s config = interpret (pFake s config) (unflipped config)
  /\ interpret 0.8
       {| flipOutputInterpretation := false; threshold := 0.5; uncertaintyRange := 0 |}
     = FAKE
  /\ interpret 0.8
       {| flipOutputInterpretation := true; threshold := 0.5; uncertaintyRange := 0 |}
     = REAL
  /\ (pFake 0.8
        {| flipOutputInterpretation := true; threshold := 0.5; uncertaintyRange := 0 |}
      == 0.2)%Q.
Proof.
  intros [H0 H1].
  split; [reflexivity|]. split.
  - unfold pFake. destruct (flipOutputInterpretation config); [|done].
    destruct s as [n d]. unfold Qle in *. cbn in *. lia.
  - repeat split.
Qed.

End VerdictInterpreter.

Lemma flip_semantics_witness :
  (0 <= 0.8 <= 1)%Q
  /\ Verdict.interpret 0.8
       {| Verdict.flipOutputInterpretation := true; Verdict.threshold := 0.5;
          Verdict.uncertaintyRange := 0.1 |}
     = Verdict.interpret
         (Verdict.pFake 0.8
            {| Verdict.flipOutputInterpretation := true; Verdict.threshold := 0.5;
               Verdict.uncertaintyRange := 0.1 |})
         {| Verdict.flipOutputInterpretation := false; Verdict.threshold := 0.5;
            Verdict.uncertaintyRange := 0.1 |}.
Proof.
  assert (H : (0 <= 0.8 <= 1)%Q) by (split; discriminate).
  split; [exact H|].
  apply (proj1 (proj2 (proj2 (flip_semantics 0.8
           {| Verdict.flipOutputInterpretation := true; Verdict.threshold := 0.5;
              Verdict.uncertaintyRange := 0.1 |} H)))).
Defined.

(** The boundary cases of the specification, with threshold 0.5 and range
    0.1: the band is [[0.45, 0.55]], its ends included. *)
Example band_boundaries :
  let config := {| Verdict.flipOutputInterpretation := false;
                   Verdict.threshold := 0.5; Verdict.uncertaintyRange := 0.1 |} in
  map (fun s => Verdict.interpret s config) [0.46; 0.54; 0.44; 0.56; 0.45; 0.55]%Q
  = [UseApi.UNCERTAIN; UseApi.UNCERTAIN; UseApi.REAL; UseApi.FAKE;
     UseApi.UNCERTAIN; UseApi.UNCERTAIN].
Proof. reflexivity. Qed.

(** ** The range shown by the calibration panel *)

Section ShownRange.

Import UseApi AudioCalibration.



(** The rules of the interpreter are the rules of [decideWith], on the band
    of the interpreter. *)
Lemma interpret_decideWith s vc :
  Verdict.interpret s vc
  = Rules.decideWith (Verdict.uncertaintyBand vc) (Verdict.threshold vc)
      (Verdict.pFake s vc).
Proof. reflexivity. Qed.


End ShownRange.



(** * Further properties of the request client *)

Section RequestAsAWhole.

Import ApiService Retry Backoff.

Variable now : string.

Lemma delays_app l l' : delays (l ++ l') = delays l ++ delays l'.
Proof. unfold delays. apply omap_app. Qed.

Lemma attempts_app l l' : attempts (l ++ l') = (attempts l + attempts l')%nat.
Proof. unfold attempts. by rewrite omap_app, length_app. Qed.

Lemma str_or_nonempty s d : d <> "" -> str_or s d <> "".
Proof.
  intros Hd. unfold str_or. destruct s as [x|]; [|done].
  destruct (String.eqb x "") eqn:E; [done|]. by apply String.eqb_neq in E.
Qed.

Lemma formatApiError_nonempty e : api_error (formatApiError now e) <> "".
Proof.
  unfold formatApiError. destruct (response e) as [[st text [err det dets ts|raw] rc]|].
  - cbn [api_error]. by apply str_or_nonempty, str_or_nonempty.
  - cbn [api_error]. discriminate.
  - cbn [api_error]. destruct (String.eqb (message e) "") eqn:E; [done|].
    by apply String.eqb_neq in E.
Qed.

Lemma terminal_message_nonempty cfg o :
  failing o = true -> terminal_message now cfg o <> "".
Proof.
  intros Hf. unfold terminal_message.
  destruct (settle_failing cfg o Hf) as (e & -> & _).
  destruct (code_is e "ECONNABORTED"); [done|].
  destruct (code_is e "ECONNREFUSED" || code_is e "ENOTFOUND"); [done|].
  apply formatApiError_nonempty.
Qed.

(** X1. Behind a transport whose failing answers carry no JSON object as
    their body (a text, or nothing), an error that [client.request] rejects
    with has a message that is not empty: one of the fixed texts, the status
    line, or the text of the transport.  The hook therefore shows that
    message as it is, and never its own fallback.  (For a JSON object the
    message is whatever [new Error] makes of its [error] or [detail], which
    for a value that is not a string may be empty.) *)
Theorem rejection_has_message
    (f : nat) (T : Transport) (cfg : AxiosRequestConfig) (s s' : Service)
    (msg : string) (h : UseApi.Hook) :
  (forall n c st text b,
     T n c = Replied st text b -> failing (Replied st text b) = true ->
     exists raw, b = OtherBody raw) ->
  request f now T cfg s = Some (inr msg, s') ->
  msg <> ""
  /\ UseApi.error (UseApi.state (UseApi.onError msg h)) = Some msg.
Proof.
  intros _ H.
  assert (Hm : msg <> "").
  { revert s H. induction f as [|f IH]; intros s H; [done|].
    destruct (failing (T (calls s) cfg)) eqn:Hf.
    - rewrite (request_failing _ _ _ _ _ Hf) in H.
      destruct (retryable (T (calls s) cfg)
                && (counter (retryAttempts s) cfg <? MAX_RETRIES)%nat).
      + by apply (IH _ H).
      + injection H as <- <-. by apply terminal_message_nonempty.
    - destruct (request_fulfilled now f T cfg s Hf) as (r & _ & _ & E).
      rewrite E in H. done. }
  split; [done|]. cbn. apply String.eqb_neq in Hm. by rewrite Hm.
Qed.

(** The shape of every call: some number [k] of retries, bounded by what is
    left of the budget of the path, with the waits that go with them. *)
Lemma request_shape f T cfg s :
  (MAX_RETRIES - counter (retryAttempts s) cfg < f)%nat ->
  exists res s' k,
    request f now T cfg s = Some (res, s')
    /\ (k <= MAX_RETRIES - counter (retryAttempts s) cfg)%nat
    /\ delays (log s') = delays (log s) ++ waits (counter (retryAttempts s) cfg) k
    /\ attempts (log s') = (attempts (log s) + S k)%nat
    /\ calls s' = (calls s + S k)%nat.
Proof.
  revert s. induction f as [|f IH]; intros s Hlt; [lia|].
  destruct (failing (T (calls s) cfg)) eqn:Hf.
  - rewrite (request_failing _ _ _ _ _ Hf).
    destruct (retryable (T (calls s) cfg)); cbn [andb].
    + destruct (counter (retryAttempts s) cfg <? MAX_RETRIES)%nat eqn:Hc.
      * apply Nat.ltb_lt in Hc.
        destruct (IH (backed_off s cfg)) as (res & s' & k & E & Hk & D & A & C).
        { rewrite counter_backed_off. lia. }
        rewrite counter_backed_off in Hk, D.
        exists res, s', (S k). split; [done|]. split; [lia|].
        rewrite D, A, C, log_backed_off, delays_app, attempts_app.
        cbn [delays attempts omap length calls backed_off]. unfold waits. cbn [seq fmap list_fmap].
        split; [by rewrite <- app_assoc|]. split; cbn; lia.
      * eexists _, _, 0%nat. split; [done|]. split; [lia|].
        cbn [sent log calls]. rewrite delays_app, attempts_app. cbn.
        split; [done|]. split; lia.
    + eexists _, _, 0%nat. split; [done|]. split; [lia|].
      cbn [sent log calls]. rewrite delays_app, attempts_app. cbn.
      split; [done|]. split; lia.
  - destruct (request_fulfilled now f T cfg s Hf) as (r & _ & _ & E).
    eexists _, _, 0%nat. split; [exact E|]. split; [lia|].
    cbn [log calls]. rewrite delays_app, attempts_app. cbn.
    split; [done|]. split; lia.
Qed.

Lemma waits_bound c k :
  (k <= MAX_RETRIES - c)%nat ->
  foldr Z.add 0 (waits c k) <= 7000
  /\ Forall (fun d => d = 1000 \/ d = 2000 \/ d = 4000) (waits c k).
Proof.
  unfold MAX_RETRIES. intros H.
  destruct c as [|[|[|c]]]; destruct k as [|[|[|[|k]]]]; try lia;
    (split; [vm_compute; congruence|]); unfold waits; cbn [seq fmap list_fmap];
    repeat (apply List.Forall_cons; [vm_compute; auto|]); apply List.Forall_nil.
Qed.

(** Beside nobody, [request_among] is [request]. *)
Lemma request_among_alone I f T cfg s :
  Overlap.alone I -> Overlap.request_among I f now T cfg s = request f now T cfg s.
Proof.
  intros HI. revert cfg s. induction f as [|f IH]; intros cfg s; [done|].
  cbn [Overlap.request_among request].
  destruct (settle cfg (T (calls s) cfg)) as [r|e]; [done|].
  destruct (handleResponseError now (retryAttempts s) e) as [[msg|d cfg'] m]; [done|].
  by rewrite HI, IH.
Qed.

(** X2. A request that runs alone, with no other request of the client
    touching the shared [retryAttempts] map while it waits: whatever the
    transport does and whatever was counted before, it comes back after at
    most four HTTP calls and at most three waits, each of 1, 2 or 4 seconds,
    seven seconds in all at most, and it makes no more retries than the
    budget of its path has left.  (Beside other requests there is no such
    bound: [overlapping_success_renews_budget].) *)
Theorem request_is_bounded
    (I : Overlap.Interference) (T : Transport) (cfg : AxiosRequestConfig) (s : Service) :
  Overlap.alone I ->
  exists res s' new,
    Overlap.request_among I (S MAX_RETRIES) now T cfg s = Some (res, s')
    /\ log s' = log s ++ new
    /\ (attempts new <= 4)%nat
    /\ attempts new = S (length (delays new))
    /\ (length (delays new) <= MAX_RETRIES - counter (retryAttempts s) cfg)%nat
    /\ Forall (fun d => d = 1000 \/ d = 2000 \/ d = 4000) (delays new)
    /\ total_wait new <= 7000.
Proof.
  intros HI. rewrite (request_among_alone I _ T cfg s HI).
  destruct (request_shape (S MAX_RETRIES) T cfg s) as (res & s' & k & E & Hk & D & A & _);
    [lia|].
  assert (Hlog : exists new, log s' = log s ++ new).
  { clear -E. revert s E. generalize (S MAX_RETRIES). intros f.
    induction f as [|f IH]; intros s E; [done|].
    destruct (failing (T (calls s) cfg)) eqn:Hf.
    - rewrite (request_failing _ _ _ _ _ Hf) in E.
      destruct (retryable (T (calls s) cfg)
                && (counter (retryAttempts s) cfg <? MAX_RETRIES)%nat).
      + destruct (IH _ E) as [new Hn]. rewrite log_backed_off in Hn.
        eexists. rewrite Hn. by rewrite <- app_assoc.
      + injection E as <- <-. by eexists.
    - destruct (request_fulfilled now f T cfg s Hf) as (r & _ & _ & E').
      rewrite E' in E. injection E as <- <-. by eexists. }
  destruct Hlog as [new Hnew].
  rewrite Hnew, delays_app in D. apply app_inv_head in D.
  rewrite Hnew, attempts_app in A.
  assert (A' : attempts new = S k) by lia.
  assert (L : length (delays new) = k) by (rewrite D; unfold waits; by rewrite length_fmap, length_seq).
  destruct (waits_bound _ _ Hk) as [W1 W2].
  exists res, s', new. split; [done|]. split; [done|].
  split; [unfold MAX_RETRIES in Hk; lia|]. split; [lia|]. split; [lia|].
  unfold total_wait. rewrite D. done.
Qed.

End RequestAsAWhole.

(** Beside another request the bound is gone.  A request to [/health]
    against the 503 backend, while another request to [/health] succeeds
    during its first wait: the counter it had set to 1 is deleted, it starts
    from 0 again, and comes back after five HTTP calls and four waits, eight
    seconds in all. *)
Example overlapping_success_renews_budget :
  Overlap.request_among MoreSamples.cleared_once 5 "now" Samples.unavailable
    Samples.health ApiService.fresh
  = Some (inr "HTTP 503: Service Unavailable",
          {| ApiService.retryAttempts := {[ "/health" := 3%nat ]};
             ApiService.calls := 5;
             ApiService.log :=
               [ApiService.Sent Samples.health; ApiService.Slept 1000;
                ApiService.Sent Samples.health; ApiService.Slept 1000;
                ApiService.Sent Samples.health; ApiService.Slept 2000;
                ApiService.Sent Samples.health; ApiService.Slept 4000;
                ApiService.Sent Samples.health] |}).
Proof. reflexivity. Qed.

Section RequestBudget.

Import ApiService Retry Backoff.

Variable now : string.

Lemma key_truthy cfg u :
  url cfg = Some u -> String.eqb u "" = false -> key cfg = u.
Proof. intros Hu H. unfold key, str_or. by rewrite Hu, H. Qed.


(** X3. A call of [client.request] touches the retry counter of its own
    path only: the counters of all other paths are after the call what they
    were before, whether the call succeeded, failed, or was retried. *)
Theorem request_leaves_other_paths
    (f : nat) (T : Transport) (cfg : AxiosRequestConfig) (s s' : Service)
    (res : AxiosResponse + string) (k : string) :
  request f now T cfg s = Some (res, s') ->
  k <> key cfg ->
  retryAttempts s' !! k = retryAttempts s !! k.
Proof.
  intros H Hk. revert s H. induction f as [|f IH]; intros s H; [done|].
  destruct (failing (T (calls s) cfg)) eqn:Hf.
  - rewrite (request_failing _ _ _ _ _ Hf) in H.
    destruct (retryable (T (calls s) cfg)
              && (counter (retryAttempts s) cfg <? MAX_RETRIES)%nat).
    + rewrite (IH _ H). cbn. by rewrite lookup_insert_ne.
    + by injection H as <- <-.
  - destruct (request_fulfilled now f T cfg s Hf) as (r & _ & Hcfg & E).
    rewrite E in H. injection H as <- <-. cbn [retryAttempts].
    unfold onFulfilled. rewrite Hcfg.
    destruct (url cfg) as [u|] eqn:Hu; [|done].
    destruct (String.eqb u "") eqn:Hu0; [done|].
    rewrite lookup_delete_ne; [done|].
    rewrite <- (key_truthy cfg u Hu Hu0). congruence.
Qed.

(** Behind a transport that only fails retryably, a call that starts with
    [c] retries counted makes the [MAX_RETRIES - c] retries that are left. *)
Lemma request_uses_what_is_left n T cfg s :
  always_retryable T ->
  (counter (retryAttempts s) cfg + n = MAX_RETRIES)%nat ->
  exists msg s',
    request (S n) now T cfg s = Some (inr msg, s')
    /\ delays (log s') = delays (log s) ++ waits (counter (retryAttempts s) cfg) n
    /\ attempts (log s') = (attempts (log s) + S n)%nat
    /\ counter (retryAttempts s') cfg = MAX_RETRIES.
Proof.
  intros HT. revert s. induction n as [|n IH]; intros s Hc.
  - rewrite request_exhausted; [|apply retryable_failing, HT|lia].
    eexists _, _. split; [done|]. cbn [sent log retryAttempts].
    rewrite delays_app, attempts_app. cbn. split; [done|]. split; lia.
  - rewrite (request_descend now (S n) T cfg s HT) by lia.
    destruct (IH (backed_off s cfg)) as (msg & s' & E & D & A & C).
    { rewrite counter_backed_off. lia. }
    exists msg, s'. split; [done|].
    rewrite D, A, counter_backed_off, log_backed_off, delays_app, attempts_app.
    cbn. unfold waits. cbn [seq fmap list_fmap].
    split; [by rewrite <- app_assoc|]. split; [lia|done].
Qed.

(** X4. The budget of three retries belongs to the path, not to the call:
    behind a backend that keeps failing retryably, a call to a path on which
    [c] retries are already counted makes exactly [3 - c] retries, with the
    waits that continue the series ([2^c] seconds first), and leaves the
    counter at 3. *)
Theorem budget_is_per_path
    (T : Transport) (cfg : AxiosRequestConfig) (s : Service) (c : nat) :
  always_retryable T ->
  counter (retryAttempts s) cfg = c ->
  (c <= MAX_RETRIES)%nat ->
  exists msg s',
    request (S MAX_RETRIES) now T cfg s = Some (inr msg, s')
    /\ delays (log s') = delays (log s) ++ waits c (MAX_RETRIES - c)
    /\ attempts (log s') = (attempts (log s) + S (MAX_RETRIES - c))%nat
    /\ counter (retryAttempts s') cfg = MAX_RETRIES.
Proof.
  intros HT Hc Hle.
  destruct (request_uses_what_is_left (MAX_RETRIES - c) T cfg s HT)
    as (msg & s' & E & D & A & C); [lia|].
  exists msg, s'. rewrite Hc in D.
  split; [|done]. apply (request_more_fuel now _ _ _ _ _ _ E). lia.
Qed.

(** X5. A success gives the path its budget back: after a call that
    succeeded, the next call to the same path, behind a backend that now
    keeps failing, is retried three times again, after 1, 2 and 4 seconds. *)
Theorem success_restores_budget
    (f : nat) (T T' : Transport) (cfg : AxiosRequestConfig) (s s1 : Service)
    (r : AxiosResponse) :
  request f now T cfg s = Some (inl r, s1) ->
  str_truthy (url cfg) = true ->
  always_retryable T' ->
  retryAttempts s1 !! key cfg = None
  /\ exists msg s2,
       request (S MAX_RETRIES) now T' cfg s1 = Some (inr msg, s2)
       /\ delays (log s2) = delays (log s1) ++ [1000; 2000; 4000]
       /\ attempts (log s2) = (attempts (log s1) + 4)%nat.
Proof.
  intros H Hu HT'.
  pose proof (request_success_clears now f T cfg s r s1 H Hu) as Hnone.
  split; [done|].
  assert (Hc : counter (retryAttempts s1) cfg = 0%nat)
    by (unfold counter; by rewrite Hnone).
  destruct (request_uses_what_is_left MAX_RETRIES T' cfg s1 HT')
    as (msg & s2 & E & D & A & _); [lia|].
  exists msg, s2. rewrite Hc in D. done.
Qed.


(** X7. A failure that is not retryable (a timeout, a refused connection,
    an unknown host, or an answer outside 2xx and 5xx) costs one HTTP call:
    the request is rejected after it, with no wait, and no retry counter
    has changed. *)
Theorem not_retryable_is_final
    (f : nat) (T : Transport) (cfg : AxiosRequestConfig) (s : Service) :
  failing (T (calls s) cfg) = true ->
  retryable (T (calls s) cfg) = false ->
  request (S f) now T cfg s
  = Some (inr (terminal_message now cfg (T (calls s) cfg)),
          {| retryAttempts := retryAttempts s;
             calls := S (calls s);
             log := log s ++ [Sent cfg] |})
  /\ (forall m, T (calls s) cfg = Failed (Some "ECONNABORTED") m ->
        terminal_message now cfg (T (calls s) cfg) = TIMEOUT_MESSAGE)
  /\ (forall st text err detail details ts,
        T (calls s) cfg = Replied st text (ObjectBody (Some err) detail details ts) ->
        err <> "" ->
        terminal_message now cfg (T (calls s) cfg) = err).
Proof.
  intros Hf Hr. split; [|split].
  - rewrite (request_failing _ _ _ _ _ Hf), Hr. reflexivity.
  - intros m E. by rewrite E.
  - intros st text err detail details ts E Hne. rewrite E in *.
    cbn [failing] in Hf. apply negb_true_iff in Hf.
    unfold terminal_message. cbn [settle]. rewrite Hf.
    match goal with |- context [formatApiError now ?e] => set (err0 := e) end.
    assert (Hs : special (code err0) = false).
    { subst err0. cbn [code].
      destruct ((400 <=? st) && (st <? 500)); [reflexivity|].
      by destruct ((500 <=? st) && (st <? 600)). }
    pose proof (code_is_special err0) as Hc. rewrite Hs in Hc.
    apply orb_false_elim in Hc as [-> ->].
    subst err0. cbn. apply String.eqb_neq in Hne. by rewrite Hne.
Qed.

End RequestBudget.

(** * Further properties of the file validation *)

Section ValidationAsAWhole.

Import ApiService Names Letters.

(** X8. [validateFile] accepts a file exactly when the list of formats could
    be fetched, the extension of the file is in it, and the file has at most
    100 MiB; it gives a reason exactly when it does not accept, and when the
    list could not be fetched the reason is the fixed one, whatever the
    file. *)
Theorem validation_characterised
    (formats : SupportedFormatsResponse + string) (file : File) :
  (valid (validateFile formats file) = true
     <-> exists F, formats = inl F
                   /\ includes (audio F ++ image F) (fileExtension file) = true
                   /\ size file <= 100 * 1024 * 1024)
  /\ (valid (validateFile formats file) = true
      <-> validation_error (validateFile formats file) = None)
  /\ (forall e, formats = inr e ->
        validateFile formats file
        = {| valid := false; validation_error := Some UNABLE_TO_VALIDATE |}).
Proof.
  unfold validateFile. destruct formats as [F|e].
  - destruct (includes (audio F ++ image F) (fileExtension file)) eqn:Hin; cbn [negb].
    + destruct (maxSize <? size file) eqn:Hsz; cbn [valid validation_error].
      * apply Z.ltb_lt in Hsz. unfold maxSize in Hsz.
        split; [|split; [done|done]].
        split; [done|]. intros (F' & [= <-] & _ & Hle). lia.
      * apply Z.ltb_ge in Hsz. unfold maxSize in Hsz.
        split; [|split; [done|done]].
        split; [|done]. intros _. exists F. done.
    + cbn [valid validation_error]. split; [|split; [done|done]].
      split; [done|]. intros (F' & [= <-] & Hin' & _). congruence.
  - cbn [valid validation_error]. split; [|split; [done|]].
    + split; [done|]. intros (F & [=] & _).
    + intros e' _. reflexivity.
Qed.

Lemma lower_dot c : Ascii.eqb (lower c) "." = Ascii.eqb c ".".
Proof. destruct c as [[] [] [] [] [] [] [] []]; reflexivity. Qed.

Lemma lower_lower c : lower (lower c) = lower c.
Proof. destruct c as [[] [] [] [] [] [] [] []]; reflexivity. Qed.

Lemma lower_not_upper c : is_upper (lower c) = false.
Proof. destruct c as [[] [] [] [] [] [] [] []]; reflexivity. Qed.

Lemma toLowerCase_idem s : toLowerCase (toLowerCase s) = toLowerCase s.
Proof. induction s as [|c s IH]; cbn [toLowerCase]; [done|]. by rewrite lower_lower, IH. Qed.

Lemma toLowerCase_no_upper s : has_upper (toLowerCase s) = false.
Proof.
  induction s as [|c s IH]; cbn [toLowerCase has_upper]; [done|].
  by rewrite lower_not_upper, IH.
Qed.

(** Lower-casing goes through the split at the dots. *)
Lemma split_toLowerCase s :
  split "." (toLowerCase s) = toLowerCase <$> split "." s.
Proof.
  induction s as [|c s IH]; cbn [toLowerCase split]; [done|].
  rewrite lower_dot, IH. destruct (Ascii.eqb c "."); [done|].
  by destruct (split "." s).
Qed.

Lemma fileExtension_lower n sz ty sz' ty' :
  fileExtension {| name := toLowerCase n; size := sz'; type := ty' |}
  = fileExtension {| name := n; size := sz; type := ty |}.
Proof.
  unfold fileExtension. cbn [name]. rewrite split_toLowerCase, fmap_last.
  destruct (last (split "." n)) as [x|]; cbn; [|done].
  by rewrite toLowerCase_idem.
Qed.

(** X9. The validation does not see the case of the letters of the file
    name: a file and the file of the same size with the name in lower case
    get the same answer, reason included. *)
Theorem validation_ignores_case_of_name
    (formats : SupportedFormatsResponse + string) (n : string) (sz : Z) (ty : string) :
  validateFile formats {| name := toLowerCase n; size := sz; type := ty |}
  = validateFile formats {| name := n; size := sz; type := ty |}.
Proof.
  unfold validateFile. destruct formats as [F|e]; [|done].
  by rewrite (fileExtension_lower n sz ty sz ty).
Qed.

Lemma fileExtension_no_upper file : has_upper (fileExtension file) = false.
Proof.
  unfold fileExtension.
  destruct (last (split "." (name file))) as [x|].
  - change ("." +:+ toLowerCase x) with (String "." (toLowerCase x)).
    cbn [has_upper]. by rewrite toLowerCase_no_upper.
  - reflexivity.
Qed.

Lemma includes_spec l x : includes l x = true <-> x ∈ l.
Proof.
  unfold includes. rewrite existsb_exists. split.
  - intros (y & Hy & E). apply String.eqb_eq in E. subst. by apply list_elem_of_In.
  - intros H. exists x. split; [by apply list_elem_of_In|apply String.eqb_refl].
Qed.

(** X10. Only the extension of the file is put in lower case, the list of
    the backend is taken as it comes: an entry of the list that has a capital
    letter matches no file, and a list made of such entries accepts
    nothing. *)
Theorem capital_entries_match_nothing (F : SupportedFormatsResponse) (file : File) :
  (forall x, x ∈ audio F ++ image F -> has_upper x = true) ->
  valid (validateFile (inl F) file) = false
  /\ forall x, has_upper x = true -> fileExtension file <> x.
Proof.
  intros Hall.
  assert (Hne : forall x, has_upper x = true -> fileExtension file <> x).
  { intros x Hx E. rewrite <- E, fileExtension_no_upper in Hx. done. }
  split; [|done]. unfold validateFile.
  destruct (includes (audio F ++ image F) (fileExtension file)) eqn:Hin; [|done].
  apply includes_spec in Hin. apply Hall in Hin.
  by rewrite fileExtension_no_upper in Hin.
Qed.

End ValidationAsAWhole.

(** * Further properties of the analysis hook *)

Section HookAsAWhole.

Import ApiService UseApi Gate.

(** A property of the hook that every event keeps holds in every state the
    hook can reach. *)
Lemma run_keeps (P : Hook -> Prop) :
  (forall h ev h', P h -> step h ev = Some h' -> P h') ->
  forall evs h h', P h -> run h evs = Some h' -> P h'.
Proof.
  intros Hstep evs. induction evs as [|ev evs IH]; intros h h' HP Hrun; cbn in Hrun.
  - by injection Hrun as <-.
  - destruct (step h ev) as [h1|] eqn:Hs; [|done].
    apply (IH h1); [|done]. by apply (Hstep h ev).
Qed.

Lemma percent_range l t : 0 < t -> 0 <= l <= t -> 0 <= percent l t <= 100.
Proof.
  intros Ht [H0 H1]. rewrite percent_div by done. split.
  - apply Z.div_pos; lia.
  - assert ((200 * l + t) / (2 * t) < 101); [|lia].
    apply Z.div_lt_upper_bound; lia.
Qed.

(** X11. A progress event with a total and no more loaded than the total
    moves the progress of the state to a percentage between 0 and 100 and
    changes nothing else; an event without a total, or with total 0, changes
    nothing at all. *)
Theorem progress_stays_in_range (h : Hook) (l t : Z) :
  0 < t -> 0 <= l <= t ->
  let h' := onProgress {| loaded := l; total := Some t |} h in
  0 <= progress (state h') <= 100
  /\ isAnalyzing (state h') = isAnalyzing (state h)
  /\ error (state h') = error (state h)
  /\ result (state h') = result (state h)
  /\ uploadedFile (state h') = uploadedFile (state h)
  /\ abortControllerRef h' = abortControllerRef h
  /\ pending h' = pending h
  /\ aborted h' = aborted h
  /\ onProgress {| loaded := l; total := None |} h = h
  /\ onProgress {| loaded := l; total := Some 0 |} h = h.
Proof.
  intros Ht Hl h'. subst h'. unfold onProgress, onUploadProgress. cbn [total loaded].
  replace (t =? 0) with false by lia. cbn.
  split; [by apply percent_range|]. done.
Qed.

Lemma step_analysing_ok h ev h' :
  analysing_ok h -> step h ev = Some h' -> analysing_ok h'.
Proof.
  intros HI Hs. destruct ev; cbn [step] in Hs.
  - injection Hs as <-. unfold analyzeFile.
    destruct (negb (valid (validateFile formats file))); [by intros ?|].
    intros _. cbn. split; [|done].
    exists (created h). split; [done|]. apply elem_of_app. right. by apply list_elem_of_singleton.
  - destruct (is_pending c h && negb (is_aborted c h)); [|done].
    injection Hs as <-. unfold onProgress.
    destruct (onUploadProgress true e); [|done]. exact HI.
  - destruct (is_pending c h && negb (is_aborted c h)); [|done].
    injection Hs as <-. by intros ?.
  - destruct (is_pending c h && negb (is_aborted c h)); [|done].
    injection Hs as <-. by intros ?.
  - destruct (is_pending c h && is_aborted c h); [|done].
    injection Hs as <-. by intros ?.
  - injection Hs as <-. unfold cancelAnalysis.
    destruct (abortControllerRef h); [by intros ?|exact HI].
  - injection Hs as <-. unfold resetAnalysis. cbn.
    destruct (abortControllerRef h); by intros ?.
  - injection Hs as <-. unfold unmount.
    destruct (abortControllerRef h) eqn:E; [|exact HI].
    intros Ha. apply HI in Ha. cbn. by rewrite E in *.
Qed.

(** X12. In every state the hook can reach, [isAnalyzing] is set only while
    the request of the controller in the ref has not settled, the file is
    set, and neither an error nor a result is shown; so [canCancel] is the
    same as [isAnalyzing]. *)
Theorem analysing_means_pending (evs : list Event) (h : Hook) :
  run initial evs = Some h ->
  (isAnalyzing (state h) = true ->
     (exists c, abortControllerRef h = Some c /\ c ∈ pending h)
     /\ error (state h) = None
     /\ result (state h) = None
     /\ is_Some (uploadedFile (state h)))
  /\ canCancel h = isAnalyzing (state h).
Proof.
  intros Hrun.
  assert (HI : analysing_ok h).
  { apply (run_keeps analysing_ok step_analysing_ok evs initial h); [|done].
    intros H. cbn in H. done. }
  split; [exact HI|]. unfold canCancel.
  destruct (isAnalyzing (state h)) eqn:Ha; [|done].
  destruct (HI Ha) as ((c & -> & _) & _). done.
Qed.

(** X13. [resetAnalysis] gives the initial state back from any state,
    empties the ref, and aborts the controller the ref held and no other;
    after it, a second reset, a cancel and the unmount clean-up change
    nothing, and nothing can be cancelled. *)
Theorem reset_discards_everything (h : Hook) :
  state (resetAnalysis h) = state initial
  /\ abortControllerRef (resetAnalysis h) = None
  /\ pending (resetAnalysis h) = pending h
  /\ aborted (resetAnalysis h)
     = match abortControllerRef h with
       | Some c => {[c]} ∪ aborted h
       | None => aborted h
       end
  /\ resetAnalysis (resetAnalysis h) = resetAnalysis h
  /\ cancelAnalysis (resetAnalysis h) = resetAnalysis h
  /\ unmount (resetAnalysis h) = resetAnalysis h
  /\ canCancel (resetAnalysis h) = false.
Proof. by destruct h as [st [c|] cr ab pe]. Qed.

Lemma settled_single c h : pending h = [c] -> pending (settled c h) = [].
Proof.
  intros E. cbn [pending settled]. rewrite E. cbn.
  by rewrite decide_False by (intros H; by apply H).
Qed.

Lemma pending_single c0 h :
  one_at_a_time h -> is_pending c0 h = true -> pending h = [c0].
Proof.
  intros (_ & HF & HT) Hp. unfold is_pending in Hp. apply bool_decide_eq_true in Hp.
  destruct (isAnalyzing (state h)).
  - destruct (HT eq_refl) as (c & E & _). rewrite E in Hp.
    apply list_elem_of_singleton in Hp. by subst.
  - rewrite (HF eq_refl) in Hp. by apply elem_of_nil in Hp.
Qed.

Lemma step_one_at_a_time h ev h' :
  one_at_a_time h -> allowed h ev = true -> step h ev = Some h' -> one_at_a_time h'.
Proof.
  intros HI Ha Hs. pose proof HI as (Hab & HF & HT).
  destruct ev; cbn [step allowed] in Hs, Ha; try done.
  - apply negb_true_iff in Ha. injection Hs as <-. unfold analyzeFile.
    destruct (negb (valid (validateFile formats file))).
    + split; [done|]. split; [intros _; by apply HF|done].
    + split; [done|]. split; [done|]. intros _. cbn. rewrite (HF Ha).
      by exists (created h).
  - destruct (is_pending c h && negb (is_aborted c h)); [|done].
    injection Hs as <-. unfold onProgress.
    by destruct (onUploadProgress true e).
  - destruct (is_pending c h) eqn:Hp; [|done].
    destruct (negb (is_aborted c h)); [|done]. cbn in Hs. injection Hs as <-.
    split; [done|]. split; [|done].
    intros _. apply settled_single. by apply pending_single.
  - destruct (is_pending c h) eqn:Hp; [|done].
    destruct (negb (is_aborted c h)); [|done]. cbn in Hs. injection Hs as <-.
    split; [done|]. split; [|done].
    intros _. apply settled_single. by apply pending_single.
  - destruct (is_pending c h) eqn:Hp; [|done].
    destruct (is_aborted c h) eqn:Hc; [|done].
    unfold is_aborted in Hc. apply bool_decide_eq_true in Hc.
    rewrite Hab in Hc. by apply not_elem_of_empty in Hc.
Qed.

(** X14. In a run in which every call of [analyzeFile] comes back from the
    validation at a moment at which [isAnalyzing] is false, and in which
    there is no cancel, reset or unmount, there is never more than one
    request on the wire, it is the one of the controller in the ref, no
    signal has fired, and [isAnalyzing] tells exactly whether there is
    one. *)
Theorem gated_runs_are_single_flight (evs : list Event) (h : Hook) :
  gated initial evs = true ->
  run initial evs = Some h ->
  (length (pending h) <= 1)%nat
  /\ live h = pending h
  /\ aborted h = ∅
  /\ (forall c, c ∈ pending h -> abortControllerRef h = Some c)
  /\ (isAnalyzing (state h) = true <-> pending h <> []).
Proof.
  intros Hg Hrun.
  assert (HI : one_at_a_time h).
  { assert (H0 : one_at_a_time initial) by (split; [done|]; split; done).
    revert Hg Hrun H0. generalize initial. induction evs as [|ev evs IH];
      intros h0 Hg Hrun H0; cbn in Hg, Hrun.
    - by injection Hrun as <-.
    - apply andb_true_iff in Hg as [Ha Hg].
      destruct (step h0 ev) as [h1|] eqn:Hs; [|done].
      apply (IH h1); [done|done|]. by apply (step_one_at_a_time h0 ev). }
  destruct HI as (Hab & HF & HT).
  assert (Hlive : live h = pending h).
  { unfold live. rewrite Hab. clear. induction (pending h) as [|c l IH]; [done|].
    rewrite filter_cons_True by apply not_elem_of_empty. by rewrite IH. }
  destruct (isAnalyzing (state h)) eqn:Ha.
  - destruct (HT eq_refl) as (c & E & R). rewrite E.
    split; [cbn; lia|]. split; [by rewrite <- E|]. split; [done|].
    split; [|done]. intros c' Hc'. apply list_elem_of_singleton in Hc'. by subst.
  - rewrite (HF eq_refl) in *.
    split; [cbn; lia|]. split; [done|]. split; [done|].
    split; [intros c Hc; by apply elem_of_nil in Hc|]. split; done.
Qed.

End HookAsAWhole.

(** With a cancel in the run the condition on [isAnalyzing] is not enough:
    the rejection of the cancelled request arrives while the next analysis
    runs and clears [isAnalyzing], and a third analysis, which meets
    [isAnalyzing] false, starts beside the second. *)
Example cancel_reopens_the_gate :
  (fun h => (UseApi.live h, UseApi.isAnalyzing (UseApi.state h)))
    <$> UseApi.run UseApi.initial
          [UseApi.AnalyzeFile Samples.wav_and_png Samples.song;
           UseApi.CancelAnalysis;
           UseApi.AnalyzeFile Samples.wav_and_png Samples.photo;
           UseApi.Cancelled 0 true "canceled";
           UseApi.AnalyzeFile Samples.wav_and_png Samples.song]
  = Some ([1%nat; 2%nat], true).
Proof. reflexivity. Qed.

(** * Properties of the calibration hook beyond the round trip *)

Section CalibrationAsAWhole.

Import UseApi.

(** X15. [resetConfig] sets the defaults and removes the stored copy: a hook
    initialized afterwards starts with the defaults whatever was stored
    before, and what the storage holds under other keys is untouched. *)
Theorem reset_forgets_the_stored_config (localStorage : Storage) :
  fst (resetConfig localStorage) = defaultAudioConfig
  /\ initialConfig (snd (resetConfig localStorage)) = defaultAudioConfig
  /\ (denied localStorage = false ->
      items (snd (resetConfig localStorage)) !! STORAGE_KEY = None)
  /\ (forall k, k <> STORAGE_KEY ->
        items (snd (resetConfig localStorage)) !! k = items localStorage !! k).
Proof.
  split; [reflexivity|]. split; [apply reset_then_reload|].
  unfold resetConfig. cbn [snd]. destruct (denied localStorage); split.
  - done.
  - done.
  - intros _. cbn. apply lookup_delete_eq.
  - intros k Hk. cbn. by apply lookup_delete_ne.
Qed.

(** X16. A write the storage refuses does not stop [setConfig]: the state
    gets the merged config all the same, the storage is as it was, and a hook
    initialized afterwards starts with what was stored before the update. *)
Theorem refused_write_is_swallowed
    (config : AudioCalibrationConfig) (newConfig : PartialConfig)
    (localStorage : Storage) :
  denied localStorage || full localStorage = true ->
  fst (setConfig config newConfig localStorage) = spread config newConfig
  /\ snd (setConfig config newConfig localStorage) = localStorage
  /\ initialConfig (snd (setConfig config newConfig localStorage))
     = initialConfig localStorage.
Proof. intros H. by rewrite (setConfig_refused _ _ _ H). Qed.

Lemma setConfig_flags config newConfig localStorage :
  denied (snd (setConfig config newConfig localStorage)) = denied localStorage
  /\ full (snd (setConfig config newConfig localStorage)) = full localStorage.
Proof.
  unfold setConfig. cbn [snd].
  by destruct (denied localStorage || full localStorage).
Qed.

Lemma setConfig_reload config newConfig localStorage :
  denied localStorage = false -> full localStorage = false ->
  initialConfig (snd (setConfig config newConfig localStorage))
  = spread config newConfig.
Proof.
  intros Hd Hf. unfold setConfig. rewrite Hd, Hf. cbn [snd orb].
  unfold initialConfig. cbn [denied items]. by rewrite lookup_insert_eq.
Qed.

(** X17. What is stored is the merge over the config the callback holds, not
    over what is stored.  Two updates of which the second is made from the
    state the first produced leave both in the storage; two updates made from
    the same state leave only the second: what the first set and the second
    does not mention is back at its old value after a reload. *)
Theorem second_update_decides
    (config : AudioCalibrationConfig) (p1 p2 : PartialConfig) (localStorage : Storage) :
  denied localStorage = false ->
  full localStorage = false ->
  let after1 := setConfig config p1 localStorage in
  initialConfig (snd (setConfig (fst after1) p2 (snd after1)))
  = spread (spread config p1) p2
  /\ initialConfig (snd (setConfig config p2 (snd after1))) = spread config p2
  /\ (new_threshold p2 = Absent ->
      threshold (initialConfig (snd (setConfig config p2 (snd after1))))
      = threshold config).
Proof.
  intros Hd Hf after1.
  destruct (setConfig_flags config p1 localStorage) as [Hd1 Hf1].
  rewrite Hd in Hd1. rewrite Hf in Hf1.
  split; [|split].
  - subst after1. by rewrite setConfig_reload.
  - subst after1. by rewrite setConfig_reload.
  - intros Ha. subst after1. rewrite setConfig_reload by done.
    cbn. by rewrite Ha.
Qed.

End CalibrationAsAWhole.

(** * The probability chart *)

Section Chart.

Import UseApi ResultsVisualization.

(** X18. Without metadata the chart has no data, whatever the confidence.
    With metadata that has neither pair of probabilities complete, the chart
    has the two entries Real and Fake, they add up to 100, and the share of
    Real is the confidence for a REAL verdict and its complement for FAKE
    and for UNCERTAIN alike. *)
Theorem chart_falls_back_on_confidence
    (m : DetectionMetadata) (r : DetectionResult) (c : Q) :
  prob_fake m = None \/ prob_real m = None ->
  real_probability m = None \/ fake_probability m = None ->
  probabilityData None r c = []
  /\ exists real fake,
       probabilityData (Some m) r c = slices real fake
       /\ (real + fake == 100)%Q
       /\ (r = REAL -> real == c * 100)%Q
       /\ (r <> REAL -> fake == c * 100)%Q.
Proof.
  intros H1 H2. split; [reflexivity|].
  assert (E : probabilityData (Some m) r c
              = slices (match r with
                        | REAL => c * 100
                        | _ => (1 - c) * 100
                        end)%Q
                       (100 - match r with
                              | REAL => c * 100
                              | _ => (1 - c) * 100
                              end)%Q).
  { unfold probabilityData.
    destruct (prob_fake m), (prob_real m), (real_probability m), (fake_probability m);
      try reflexivity; destruct H1 as [?|?]; destruct H2 as [?|?]; done. }
  eexists _, _. split; [exact E|].
  split; [ring|]. split.
  - by intros ->.
  - intros Hr. destruct r; [done| |]; ring.
Qed.

End Chart.

(** * The analytics reducer *)

Section AnalyticsReducer.

Import Analytics.

Lemma after_snoc ds d : after (ds ++ [d]) = dispatch (after ds) d.
Proof. unfold after. by rewrite foldl_app. Qed.

Lemma length_slice_last {A} n (l : list A) :
  length (slice_last n l) = Nat.min n (length l).
Proof. unfold slice_last. rewrite length_drop. lia. Qed.

Lemma slice_last_snoc {A} n (l : list A) x :
  slice_last (S n) (l ++ [x]) = slice_last n l ++ [x].
Proof.
  unfold slice_last. rewrite length_app. cbn [length].
  replace (length l + 1 - S n)%nat with (length l - n)%nat by lia.
  apply drop_app_le. lia.
Qed.

Lemma slice_last_twice {A} n (l : list A) :
  slice_last n (slice_last (S n) l) = slice_last n l.
Proof.
  unfold slice_last. rewrite drop_drop, length_drop. f_equal. lia.
Qed.

Lemma slice_last_fmap {A B} (f : A -> B) n (l : list A) :
  f <$> slice_last n l = slice_last n (f <$> l).
Proof. unfold slice_last. by rewrite fmap_drop, length_fmap. Qed.

Lemma total_counts ds : totalFilesAnalyzed (after ds) = length (confidences ds).
Proof.
  induction ds as [|d ds IH] using rev_ind; [done|].
  rewrite after_snoc. unfold confidences. rewrite omap_app, length_app.
  fold (confidences ds). unfold dispatch.
  destruct d as [td nw [r ft pt c| |ty]]; cbn; lia.
Qed.

(** X19. After any run of dispatches from the initial state, the total is
    the number of files analysed, it is the sum of the files counted as
    deepfakes and of those counted as authentic, a file counts as a deepfake
    exactly when its result is the text DEEPFAKE or FAKE in capitals, and
    the error count is the number of errors dispatched. *)
Theorem totals_add_up (ds : list Dispatch) :
  totalFilesAnalyzed (after ds) = length (confidences ds)
  /\ deepfakeDetected (after ds) = length (deepfakes_of ds)
  /\ totalFilesAnalyzed (after ds)
     = (deepfakeDetected (after ds) + authenticFiles (after ds))%nat
  /\ errorCount (after ds) = length (errors_of ds).
Proof.
  induction ds as [|d ds (IH1 & IH2 & IH3 & IH4)] using rev_ind; [done|].
  rewrite after_snoc. unfold confidences, deepfakes_of, errors_of.
  rewrite omap_app, !List.filter_app, !length_app.
  fold (confidences ds) (deepfakes_of ds) (errors_of ds).
  unfold dispatch. destruct d as [td nw [r ft pt c| |ty]]; cbn.
  - fold (is_deepfake r). destruct (is_deepfake r); cbn; lia.
  - lia.
  - lia.
Qed.

(** X20. The history and the processing times are windows on the run: the
    history holds the last 30 files analysed and the processing times the
    last 100, in the order of their analysis, and no more than 30 days are
    kept. *)
Theorem history_is_a_window (ds : list Dispatch) :
  confidence <$> detectionHistory (after ds) = slice_last 30 (confidences ds)
  /\ processingTimes (after ds) = slice_last 100 (times ds)
  /\ length (detectionHistory (after ds)) = Nat.min 30 (totalFilesAnalyzed (after ds))
  /\ length (processingTimes (after ds)) = Nat.min 100 (totalFilesAnalyzed (after ds))
  /\ (length (dailyUploads (after ds)) <= 30)%nat.
Proof.
  assert (H : confidence <$> detectionHistory (after ds) = slice_last 30 (confidences ds)
              /\ processingTimes (after ds) = slice_last 100 (times ds)
              /\ (length (dailyUploads (after ds)) <= 30)%nat
              /\ length (times ds) = length (confidences ds)).
  { induction ds as [|d ds (IH1 & IH2 & IH3 & IH4)] using rev_ind; [cbn; repeat split; lia|].
    rewrite after_snoc. unfold confidences, times. rewrite !omap_app, !length_app.
    fold (confidences ds) (times ds).
    unfold dispatch. destruct d as [td nw [r ft pt c| |ty]]; cbn [action analyticsReducer].
    - cbn [detectionHistory processingTimes dailyUploads omap].
      rewrite fmap_app, slice_last_fmap, IH1, IH2, !slice_last_twice.
      cbn [fmap list_fmap confidence omap list_omap action today]. rewrite !slice_last_snoc.
      split; [done|]. split; [done|]. split; [|cbn; lia].
      rewrite length_slice_last. lia.
    - cbn. rewrite !app_nil_r. repeat split; try done. lia.
    - cbn. rewrite !app_nil_r. repeat split; try done. lia. }
  destruct H as (H1 & H2 & H3 & H4).
  pose proof (total_counts ds) as T.
  split; [done|]. split; [done|]. split; [|split; [|done]].
  - rewrite <- (length_fmap confidence), H1, length_slice_last, T. done.
  - rewrite H2, length_slice_last, T, H4. done.
Qed.

Lemma Qsum_snoc l c : (Qsum (l ++ [c]) == Qsum l + c)%Q.
Proof.
  unfold Qsum. induction l as [|x l IH]; cbn [foldr app].
  - ring.
  - rewrite IH. ring.
Qed.

(** X21. The average confidence is the mean of the confidences of all the
    files analysed in the run (in exact arithmetic): times the total it is
    their sum. *)
Theorem average_is_the_mean (ds : list Dispatch) :
  (averageConfidence (after ds) * inject_Z (Z.of_nat (totalFilesAnalyzed (after ds)))
   == Qsum (confidences ds))%Q.
Proof.
  induction ds as [|d ds IH] using rev_ind; [reflexivity|].
  rewrite after_snoc. unfold confidences. rewrite omap_app. fold (confidences ds).
  unfold dispatch. destruct d as [td nw [r ft pt c| |ty]]; cbn [action analyticsReducer].
  - cbn [averageConfidence totalFilesAnalyzed omap list_omap action].
    rewrite Qsum_snoc, <- IH.
    set (n := inject_Z (Z.of_nat (totalFilesAnalyzed (after ds) + 1))).
    assert (Hn : ~ (n == 0)%Q).
    { subst n. unfold Qeq, inject_Z. cbn. lia. }
    unfold Qdiv. rewrite <- Qmult_assoc, (Qmult_comm (/ n)), Qmult_inv_r by done.
    ring.
  - cbn. by rewrite app_nil_r.
  - cbn. by rewrite app_nil_r.
Qed.

Lemma findIndex_None today l :
  findIndex today l = None -> today ∉ date <$> l.
Proof.
  induction l as [|d l IH]; cbn; [intros _; apply not_elem_of_nil|].
  destruct (String.eqb (date d) today) eqn:E; [done|].
  apply String.eqb_neq in E. intros H.
  destruct (findIndex today l); [done|].
  apply not_elem_of_cons. split; [congruence|by apply IH].
Qed.

(** X22. The daily uploads have one entry a day at most, and in every entry
    the count is at least one and is the sum of its deepfakes and its
    authentic files. *)
Theorem one_entry_a_day (ds : list Dispatch) :
  NoDup (date <$> dailyUploads (after ds))
  /\ Forall (fun d => count d = (deepfakes d + authentic d)%nat /\ (1 <= count d)%nat)
            (dailyUploads (after ds)).
Proof.
  induction ds as [|d ds [IH1 IH2]] using rev_ind.
  - split; [apply NoDup_nil_2|apply Forall_nil_2].
  - rewrite after_snoc. unfold dispatch.
    destruct d as [td nw [r ft pt c| |ty]]; cbn [action analyticsReducer]; [|done|done].
    cbn [dailyUploads]. fold (is_deepfake r).
    cbn [today].
    match goal with |- context [slice_last 30 ?x] => set (new := x) end.
    assert (Hnew : NoDup (date <$> new) /\ Forall day_ok new).
    { subst new. destruct (findIndex td (dailyUploads (after ds))) as [i|] eqn:E.
      - split.
        + rewrite (list_fmap_alter date _ id); [by rewrite list_alter_id|].
          by apply Forall_true.
        + apply Forall_alter; [done|]. intros d _ [H1 H2]. unfold day_ok. cbn.
          destruct (is_deepfake r); lia.
      - split.
        + rewrite fmap_app. apply NoDup_app. split; [done|]. split.
          * intros x Hx Hin. cbn in Hin. apply list_elem_of_singleton in Hin. subst.
            by apply (findIndex_None _ _ E).
          * cbn. apply NoDup_singleton.
        + apply Forall_app. split; [done|]. apply Forall_singleton.
          unfold day_ok. cbn. destruct (is_deepfake r); lia. }
    destruct Hnew as [N F]. unfold slice_last. split.
    + rewrite fmap_drop. eapply sublist_NoDup; [exact N|apply sublist_drop].
    + by apply Forall_drop.
Qed.

Lemma analysed_snoc k ds d :
  length (analysed k (ds ++ [d]))
  = (length (analysed k ds)
     + match action d with
       | FILE_ANALYZED _ ft _ _ => if String.eqb ft k then 1 else 0
       | _ => 0
       end)%nat.
Proof.
  unfold analysed. rewrite List.filter_app, length_app. f_equal. cbn.
  destruct (action d) as [r ft pt c| |ty]; [|done|done].
  by destruct (String.eqb ft k).
Qed.

(** X23. For the three file types the state starts with (audio, image,
    video) the count is the number of files of that type analysed in the
    run.  Any other type is no key before its first file.  From its first
    file on, a type that is a name of [Object.prototype] ([toString],
    [constructor], ...) holds a string, the text of the inherited member
    with one digit 1 for each file of the type, and a type that is neither
    holds NaN, and NaN it stays. *)
Theorem file_type_counts (ds : list Dispatch) (k : string) :
  fileTypes (after ds) !! k
  = match fileTypes initialState !! k with
    | Some _ => Some (Number (length (analysed k ds)))
    | None =>
        if (length (analysed k ds) =? 0)%nat then None
        else if is_inherited k then Some (Text (length (analysed k ds)))
        else Some NaN
    end.
Proof.
  induction ds as [|d ds IH] using rev_ind.
  - cbn [after foldl analysed List.filter length].
    destruct (fileTypes initialState !! k) as [v|] eqn:E; [|done].
    revert E. cbn. rewrite !lookup_insert, lookup_singleton.
    repeat case_decide; congruence.
  - rewrite after_snoc, analysed_snoc. unfold dispatch.
    destruct d as [td nw [r ft pt c| |ty]]; cbn [action analyticsReducer].
    + cbn [fileTypes]. destruct (String.eqb ft k) eqn:E.
      * apply String.eqb_eq in E. subst ft. rewrite lookup_insert_eq.
        unfold plus_one. rewrite IH.
        destruct (fileTypes initialState !! k); cbn -[is_inherited].
        -- do 2 f_equal. lia.
        -- replace (length (analysed k ds) + 1 =? 0)%nat with false
             by (symmetry; apply Nat.eqb_neq; lia).
           destruct (length (analysed k ds)) as [|n] eqn:L; cbn -[is_inherited].
           ++ by destruct (is_inherited k).
           ++ destruct (is_inherited k); [|done]. do 2 f_equal. lia.
      * apply String.eqb_neq in E. rewrite lookup_insert_ne, IH by done.
        by rewrite Nat.add_0_r.
    + cbn. by rewrite IH, Nat.add_0_r.
    + by rewrite IH, Nat.add_0_r.
Qed.

End AnalyticsReducer.

(** Two files of type "toString", one of type "pdf" and one of type "audio":
    a string with two digits, NaN, and a count of 1. *)
Example file_types_off_the_list :
  let s := Analytics.after
             [MoreSamples.analysed_as "toString"; MoreSamples.analysed_as "pdf";
              MoreSamples.analysed_as "toString"; MoreSamples.analysed_as "audio"] in
  Analytics.fileTypes s !! "toString" = Some (Analytics.Text 2)
  /\ Analytics.fileTypes s !! "pdf" = Some Analytics.NaN
  /\ Analytics.fileTypes s !! "audio" = Some (Analytics.Number 1)
  /\ Analytics.fileTypes s !! "image" = Some (Analytics.Number 0)
  /\ Analytics.fileTypes s !! "valueOf" = None.
Proof. vm_compute. repeat split. Qed.

(** * Instances of the further properties *)

Lemma rejection_has_message_witness :
  (forall n c st text b,
     Samples.unavailable n c = ApiService.Replied st text b ->
     Retry.failing (ApiService.Replied st text b) = true ->
     exists raw, b = ApiService.OtherBody raw)
  /\ (exists s',
        ApiService.request 4 "now" Samples.unavailable Samples.health ApiService.fresh
        = Some (inr "HTTP 503: Service Unavailable", s'))
  /\ "HTTP 503: Service Unavailable" <> ""
  /\ UseApi.error
       (UseApi.state (UseApi.onError "HTTP 503: Service Unavailable" Samples.two_uploads))
     = Some "HTTP 503: Service Unavailable".
Proof.
  assert (H : forall n c st text b,
             Samples.unavailable n c = ApiService.Replied st text b ->
             Retry.failing (ApiService.Replied st text b) = true ->
             exists raw, b = ApiService.OtherBody raw).
  { intros n c st text b E _. injection E as _ _ <-. by eexists. }
  split; [exact H|]. split; [eexists; exact retry_ceiling_503|].
  exact (rejection_has_message "now" 4 Samples.unavailable Samples.health
           ApiService.fresh _ "HTTP 503: Service Unavailable" Samples.two_uploads
           H retry_ceiling_503).
Defined.

Lemma request_leaves_other_paths_witness :
  "/health" <> Retry.key MoreSamples.detect
  /\ ApiService.request 4 "now" Samples.unavailable MoreSamples.detect MoreSamples.two_used
     = Some (inr "HTTP 503: Service Unavailable", MoreSamples.two_paths)
  /\ ApiService.retryAttempts MoreSamples.two_used !! "/detect" = None
  /\ ApiService.retryAttempts MoreSamples.two_paths !! "/detect" = Some 3%nat
  /\ ApiService.retryAttempts MoreSamples.two_paths !! "/health"
     = ApiService.retryAttempts MoreSamples.two_used !! "/health"
  /\ ApiService.retryAttempts MoreSamples.two_used !! "/health" = Some 2%nat.
Proof.
  assert (H : "/health" <> Retry.key MoreSamples.detect) by discriminate.
  assert (E : ApiService.request 4 "now" Samples.unavailable MoreSamples.detect
                MoreSamples.two_used
              = Some (inr "HTTP 503: Service Unavailable", MoreSamples.two_paths))
    by (vm_compute; reflexivity).
  split; [exact H|]. split; [exact E|].
  split; [reflexivity|]. split; [vm_compute; reflexivity|].
  split; [|reflexivity].
  exact (request_leaves_other_paths "now" 4 Samples.unavailable MoreSamples.detect
           MoreSamples.two_used MoreSamples.two_paths
           (inr "HTTP 503: Service Unavailable") "/health" E H).
Defined.

Lemma request_is_bounded_witness :
  Overlap.alone MoreSamples.nobody
  /\ exists res s' new,
       Overlap.request_among MoreSamples.nobody 4 "now" Samples.unavailable Samples.health
         MoreSamples.two_used = Some (res, s')
       /\ ApiService.log s' = ApiService.log MoreSamples.two_used ++ new
       /\ (ApiService.attempts new <= 4)%nat
       /\ (length (ApiService.delays new) <= 1)%nat
       /\ Backoff.total_wait new <= 7000.
Proof.
  assert (H : Overlap.alone MoreSamples.nobody) by (intros n m; reflexivity).
  split; [exact H|].
  destruct (request_is_bounded "now" MoreSamples.nobody Samples.unavailable Samples.health
              MoreSamples.two_used H)
    as (res & s' & new & E & L & A & _ & D & _ & W).
  exists res, s', new. repeat split; [exact E|exact L|exact A|exact D|exact W].
Defined.

Lemma budget_is_per_path_witness :
  Retry.always_retryable Samples.unavailable
  /\ Retry.counter (ApiService.retryAttempts MoreSamples.two_used) Samples.health = 2%nat
  /\ exists msg s',
       ApiService.request 4 "now" Samples.unavailable Samples.health MoreSamples.two_used
       = Some (inr msg, s')
       /\ ApiService.delays (ApiService.log s') = [4000].
Proof.
  assert (H : Retry.always_retryable Samples.unavailable) by (intros n c; reflexivity).
  split; [exact H|]. split; [reflexivity|].
  destruct (budget_is_per_path "now" Samples.unavailable Samples.health
              MoreSamples.two_used 2 H eq_refl ltac:(unfold ApiService.MAX_RETRIES; lia))
    as (msg & s' & E & D & _).
  exists msg, s'. split; [exact E | exact D].
Defined.

Lemma success_restores_budget_witness :
  Retry.always_retryable Samples.unavailable
  /\ exists r s1 msg s2,
       ApiService.request 1 "now" MoreSamples.healthy Samples.health MoreSamples.two_used
       = Some (inl r, s1)
       /\ ApiService.request 4 "now" Samples.unavailable Samples.health s1
          = Some (inr msg, s2)
       /\ ApiService.delays (ApiService.log s2)
          = ApiService.delays (ApiService.log s1) ++ [1000; 2000; 4000].
Proof.
  assert (H : Retry.always_retryable Samples.unavailable) by (intros n c; reflexivity).
  split; [exact H|].
  destruct (request_fulfilled "now" 0 MoreSamples.healthy Samples.health
              MoreSamples.two_used eq_refl) as (r & _ & _ & E).
  destruct (success_restores_budget "now" 1 MoreSamples.healthy Samples.unavailable
              Samples.health MoreSamples.two_used _ r E eq_refl H)
    as (_ & msg & s2 & E2 & D & _).
  eexists r, _, msg, s2. split; [exact E|]. split; [exact E2 | exact D].
Defined.


Lemma not_retryable_is_final_witness :
  Retry.failing (Samples.not_found 0%nat Samples.health) = true
  /\ Retry.retryable (Samples.not_found 0%nat Samples.health) = false
  /\ ApiService.request 1 "now" Samples.not_found Samples.health ApiService.fresh
     = Some (inr (Retry.terminal_message "now" Samples.health
                    (Samples.not_found 0%nat Samples.health)),
             {| ApiService.retryAttempts := ∅;
                ApiService.calls := 1;
                ApiService.log := [] ++ [ApiService.Sent Samples.health] |}).
Proof.
  split; [reflexivity|]. split; [reflexivity|].
  exact (proj1 (not_retryable_is_final "now" 0 Samples.not_found Samples.health
                  ApiService.fresh eq_refl eq_refl)).
Defined.

Lemma validation_characterised_witness :
  ApiService.valid (ApiService.validateFile Samples.wav_and_png Samples.song) = true
  /\ ApiService.validation_error (ApiService.validateFile Samples.wav_and_png Samples.song)
     = None.
Proof.
  assert (H : ApiService.valid
                (ApiService.validateFile Samples.wav_and_png Samples.song) = true)
    by reflexivity.
  split; [exact H|].
  exact (proj1 (proj1 (proj2 (validation_characterised Samples.wav_and_png Samples.song))) H).
Defined.

Lemma capital_entries_match_nothing_witness :
  (forall x, x ∈ ApiService.audio MoreSamples.capitals ++ ApiService.image MoreSamples.capitals ->
             Letters.has_upper x = true)
  /\ ApiService.valid (ApiService.validateFile (inl MoreSamples.capitals) MoreSamples.loud)
     = false.
Proof.
  assert (H : forall x,
             x ∈ ApiService.audio MoreSamples.capitals ++ ApiService.image MoreSamples.capitals ->
             Letters.has_upper x = true).
  { intros x Hx. apply list_elem_of_singleton in Hx. subst x. reflexivity. }
  split; [exact H|].
  exact (proj1 (capital_entries_match_nothing MoreSamples.capitals MoreSamples.loud H)).
Defined.

Lemma progress_stays_in_range_witness :
  0 < 2 /\ 0 <= 1 <= 2
  /\ 0 <= UseApi.progress
            (UseApi.state
               (UseApi.onProgress {| ApiService.loaded := 1; ApiService.total := Some 2 |}
                  Samples.two_uploads)) <= 100.
Proof.
  split; [lia|]. split; [lia|].
  exact (proj1 (progress_stays_in_range Samples.two_uploads 1 2 ltac:(lia) ltac:(lia))).
Defined.

Lemma analysing_means_pending_witness :
  UseApi.run UseApi.initial
    [UseApi.AnalyzeFile Samples.wav_and_png Samples.song;
     UseApi.AnalyzeFile Samples.wav_and_png Samples.photo]
  = Some Samples.two_uploads
  /\ UseApi.canCancel Samples.two_uploads = UseApi.isAnalyzing (UseApi.state Samples.two_uploads).
Proof.
  split; [reflexivity|].
  exact (proj2 (analysing_means_pending
                  [UseApi.AnalyzeFile Samples.wav_and_png Samples.song;
                   UseApi.AnalyzeFile Samples.wav_and_png Samples.photo]
                  Samples.two_uploads eq_refl)).
Defined.

Lemma gated_runs_are_single_flight_witness :
  Gate.gated UseApi.initial
    [UseApi.AnalyzeFile Samples.wav_and_png Samples.song;
     UseApi.Resolved 0 Samples.verdict_fake] = true
  /\ UseApi.run UseApi.initial
       [UseApi.AnalyzeFile Samples.wav_and_png Samples.song;
        UseApi.Resolved 0 Samples.verdict_fake] = Some Samples.succeeded
  /\ (length (UseApi.pending Samples.succeeded) <= 1)%nat.
Proof.
  split; [reflexivity|]. split; [reflexivity|].
  exact (proj1 (gated_runs_are_single_flight
                  [UseApi.AnalyzeFile Samples.wav_and_png Samples.song;
                   UseApi.Resolved 0 Samples.verdict_fake]
                  Samples.succeeded eq_refl eq_refl)).
Defined.

Lemma reset_forgets_the_stored_config_witness :
  UseApi.denied MoreSamples.used_storage = false
  /\ "theme" <> UseApi.STORAGE_KEY
  /\ UseApi.initialConfig MoreSamples.used_storage = Samples.conservative
  /\ UseApi.items MoreSamples.used_storage !! UseApi.STORAGE_KEY
     = Some (UseApi.Json Samples.conservative)
  /\ UseApi.initialConfig (snd (UseApi.resetConfig MoreSamples.used_storage))
     = UseApi.defaultAudioConfig
  /\ UseApi.items (snd (UseApi.resetConfig MoreSamples.used_storage)) !! UseApi.STORAGE_KEY
     = None
  /\ UseApi.items (snd (UseApi.resetConfig MoreSamples.used_storage)) !! "theme"
     = Some (UseApi.Text "dark").
Proof.
  assert (K : "theme" <> UseApi.STORAGE_KEY) by discriminate.
  split; [reflexivity|]. split; [exact K|]. split; [reflexivity|]. split; [reflexivity|].
  destruct (reset_forgets_the_stored_config MoreSamples.used_storage) as (_ & R & G & O).
  split; [exact R|]. split; [exact (G eq_refl)|].
  exact (eq_trans (O "theme" K) eq_refl).
Defined.

Lemma refused_write_is_swallowed_witness :
  UseApi.denied Samples.full_storage || UseApi.full Samples.full_storage = true
  /\ snd (UseApi.setConfig UseApi.defaultAudioConfig (Samples.only_threshold 0.7%Q)
            Samples.full_storage)
     = Samples.full_storage.
Proof.
  split; [reflexivity|].
  exact (proj1 (proj2 (refused_write_is_swallowed UseApi.defaultAudioConfig
                         (Samples.only_threshold 0.7%Q) Samples.full_storage eq_refl))).
Defined.

Lemma second_update_decides_witness :
  UseApi.denied Samples.empty_storage = false
  /\ UseApi.full Samples.empty_storage = false
  /\ UseApi.threshold
       (UseApi.initialConfig
          (snd (UseApi.setConfig UseApi.defaultAudioConfig (MoreSamples.only_range 0.2%Q)
                  (snd (UseApi.setConfig UseApi.defaultAudioConfig
                          (Samples.only_threshold 0.7%Q) Samples.empty_storage)))))
     = UseApi.threshold UseApi.defaultAudioConfig.
Proof.
  split; [reflexivity|]. split; [reflexivity|].
  exact (proj2 (proj2 (second_update_decides UseApi.defaultAudioConfig
                         (Samples.only_threshold 0.7%Q) (MoreSamples.only_range 0.2%Q)
                         Samples.empty_storage eq_refl eq_refl)) eq_refl).
Defined.

Lemma chart_falls_back_on_confidence_witness :
  ResultsVisualization.prob_fake MoreSamples.bare = None
  /\ ResultsVisualization.real_probability MoreSamples.bare = None
  /\ ResultsVisualization.probabilityData None UseApi.UNCERTAIN 0.9%Q = [].
Proof.
  split; [reflexivity|]. split; [reflexivity|].
  exact (proj1 (chart_falls_back_on_confidence MoreSamples.bare UseApi.UNCERTAIN 0.9%Q
                  (or_introl eq_refl) (or_introl eq_refl))).
Defined.
